(** * video-compress: a shallow embedding of [src/main.py]

    The program discovers [.mp4] files below a path, derives an output
    file name from the chosen preset and runs [ffmpeg] once per file
    through the shell.

    Conventions of the embedding.
    - Python [str] is [string] (a sequence of bytes); paths are the
      parsed form that [pathlib.PurePosixPath] keeps (anchor and parts).
    - The part of [pathlib] the program calls ([name], [suffix], [stem],
      [with_name], [with_stem], [with_suffix], [rglob]) follows CPython
      3.12 on POSIX; the versions since 3.9, where [with_stem] appeared,
      agree with it on names without a separator.
    - Effects (file system, standard output, the log, the subprocess) are
      threaded through an explicit world; exceptions are a second kind of
      result.  The tests [exists], [is_file] and [is_dir] answer from
      what [stat] finds, and raise the error of [stat] again unless it
      is one that pathlib ignores.  Wall-clock time is not part of the world: the progress
      line is kept as an event without its two durations. *)

From Stdlib Require Import String Ascii List Bool Arith ZArith Lia.
From Stdlib Require Import DecimalString.
Import ListNotations.

Local Open Scope list_scope.
Local Open Scope string_scope.

(* ================================================================== *)
(** ** Python string primitives *)
(* ================================================================== *)

Module PyStr.

(** [s.rfind(c)]: index of the last occurrence, [None] for Python's -1. *)
Fixpoint rfind (c : ascii) (s : string) : option nat :=
  match s with
  | EmptyString => None
  | String a t =>
      match rfind c t with
      | Some i => Some (S i)
      | None => if Ascii.eqb a c then Some 0 else None
      end
  end.

(** [c in s] *)
Fixpoint contains (c : ascii) (s : string) : bool :=
  match s with
  | EmptyString => false
  | String a t => Ascii.eqb a c || contains c t
  end.

(** [s[:n]] *)
Fixpoint take (n : nat) (s : string) : string :=
  match n, s with
  | S k, String a t => String a (take k t)
  | _, _ => EmptyString
  end.

(** [s[n:]] *)
Fixpoint drop (n : nat) (s : string) : string :=
  match n, s with
  | S k, String _ t => drop k t
  | _, _ => s
  end.

(** [s.startswith(c)] for a one-character prefix *)
Definition startswith (c : ascii) (s : string) : bool :=
  match s with
  | String a _ => Ascii.eqb a c
  | EmptyString => false
  end.

(** [c.lower()] on a byte: only A-Z move.  Bytes above 127 belong to
    multi-byte characters, whose lower case never is an ASCII letter of
    [".mp4"], so comparisons with that constant are not affected. *)
Definition lower_ascii (c : ascii) : ascii :=
  let n := nat_of_ascii c in
  if ((65 <=? n) && (n <=? 90))%nat then ascii_of_nat (n + 32) else c.

Fixpoint lower (s : string) : string :=
  match s with
  | EmptyString => EmptyString
  | String a t => String (lower_ascii a) (lower t)
  end.

(** [sep.join(l)] *)
Fixpoint join (sep : string) (l : list string) : string :=
  match l with
  | [] => ""
  | [x] => x
  | x :: r => x ++ sep ++ join sep r
  end.

(** [s.split(c)] *)
Fixpoint split (c : ascii) (s : string) : list string :=
  match s with
  | EmptyString => [""]
  | String a t =>
      if Ascii.eqb a c then "" :: split c t
      else match split c t with
           | h :: r => String a h :: r
           | [] => [String a ""]
           end
  end.

(** [c * n] for a one-character string [c] *)
Fixpoint replicate (n : nat) (c : ascii) : string :=
  match n with
  | O => EmptyString
  | S k => String c (replicate k c)
  end.

(** [str(n)] for a Python [int] *)
Definition str_int (n : Z) : string := NilZero.string_of_int (Z.to_int n).

End PyStr.

(* ================================================================== *)
(** ** pathlib.PurePosixPath *)
(* ================================================================== *)

Inductive exn : Type :=
| ValueError (msg : string)
| TypeError (msg : string)
| FileNotFoundError (msg : string)
| CalledProcessError (returncode : Z) (cmd : string)
| OSError (msg : string)
| OSErrorOf (errno : Z) (filename : string)
| SystemExit (code : Z).

Module Pathlib.
Import PyStr.

(** A parsed path: [anchor] is the root (empty, one slash or two) and
    [parts] are the components after it. *)
Record Path : Type := mkPath { anchor : string; parts : list string }.

Definition sep : ascii := "/"%char.
Definition dot : ascii := "."%char.

(** [Path(s)]: components are split at the slash; empty components and
    single dots are dropped; exactly two leading slashes are kept apart. *)
Definition parse_root (s : string) : string :=
  match s with
  | String "/" (String "/" (String "/" _)) => "/"
  | String "/" (String "/" _) => "//"
  | String "/" _ => "/"
  | _ => ""
  end.

Definition keep_part (c : string) : bool :=
  negb (String.eqb c "") && negb (String.eqb c ".").

Definition of_str (s : string) : Path :=
  mkPath (parse_root s) (filter keep_part (split sep s)).

(** [str(p)] *)
Definition str (p : Path) : string :=
  match anchor p, parts p with
  | "", [] => "."
  | a, l => a ++ join "/" l
  end.

(** [p.name] *)
Definition name (p : Path) : string := last (parts p) "".

(** [p.parent] *)
Definition parent (p : Path) : Path :=
  mkPath (anchor p) (removelast (parts p)).

(** [p / child] for a single component, as [rglob] builds its results *)
Definition child (p : Path) (c : string) : Path :=
  mkPath (anchor p) (parts p ++ [c])%list.

(** The suffix of a file name: [i = name.rfind('.')], and
    [name[i:]] if [0 < i < len(name) - 1], else the empty string. *)
Definition name_suffix (n : string) : string :=
  match rfind dot n with
  | Some i => if ((0 <? i) && (i <? String.length n - 1))%nat then drop i n else ""
  | None => ""
  end.

Definition name_stem (n : string) : string :=
  match rfind dot n with
  | Some i => if ((0 <? i) && (i <? String.length n - 1))%nat then take i n else n
  | None => n
  end.

Definition suffix (p : Path) : string := name_suffix (name p).
Definition stem (p : Path) : string := name_stem (name p).

(** [repr(p)] for a path without a name: its text is then a dot, one
    slash or two, which [repr] puts between single quotes as it is. *)
Definition repr_nameless (p : Path) : string := "PosixPath('" ++ str p ++ "')".

(** [p.with_name(n)].  (The message for an invalid name goes on with
    the [repr] of the name.) *)
Definition with_name (p : Path) (n : string) : exn + Path :=
  if String.eqb (name p) ""
  then inl (ValueError (repr_nameless p ++ " has an empty name"))
  else if String.eqb n "" || contains sep n || String.eqb n "."
  then inl (ValueError "Invalid name")
  else inr (mkPath (anchor p) (removelast (parts p) ++ [n])%list).

(** [p.with_stem(s)] is [p.with_name(s + p.suffix)] *)
Definition with_stem (p : Path) (s : string) : exn + Path :=
  with_name p (s ++ suffix p).

(** [p.with_suffix(s)].  (The message for an invalid suffix goes on with
    the [repr] of the suffix.) *)
Definition with_suffix (p : Path) (s : string) : exn + Path :=
  if contains sep s then inl (ValueError "Invalid suffix")
  else if (negb (String.eqb s "") && negb (startswith dot s)) || String.eqb s "."
  then inl (ValueError "Invalid suffix")
  else
    let n := name p in
    if String.eqb n ""
    then inl (ValueError (repr_nameless p ++ " has an empty name"))
    else
      let old_suffix := suffix p in
      let n' :=
        if String.eqb old_suffix "" then n ++ s
        else take (String.length n - String.length old_suffix) n ++ s in
      inr (mkPath (anchor p) (removelast (parts p) ++ [n'])%list).

(** No component holds a separator: what parsing and directory listing
    guarantee. *)
Definition wf_path (p : Path) : Prop :=
  Forall (fun c => contains sep c = false) (parts p).

End Pathlib.
Export Pathlib.

(* ================================================================== *)
(** ** The preset catalogue *)
(* ================================================================== *)

Record CodecInfo : Type := mkCodecInfo
  { extension : string; codec_name : string; lib : string }.

(** [CodecInfo.__str__] *)
Definition CodecInfo_str (c : CodecInfo) : string :=
  "codec:" ++ codec_name c ++ " (ext:" ++ extension c ++ ", lib:" ++ lib c ++ ")".

Inductive Codec : Type := h265 | av1.

Definition Codec_value (c : Codec) : CodecInfo :=
  match c with
  | h265 => mkCodecInfo "mp4" "h265" "libx265"
  | av1 => mkCodecInfo "mkv" "av1" "libaom-av1"
  end.

(** [Codec.__str__] prints the member's value. *)
Definition Codec_str (c : Codec) : string := CodecInfo_str (Codec_value c).

Inductive Resolution : Type := fhd | uhd.

Definition Resolution_name (r : Resolution) : string :=
  match r with fhd => "fhd" | uhd => "uhd" end.

Definition Resolution_value (r : Resolution) : string :=
  match r with fhd => "1920:1080" | uhd => "3840:2160" end.

Record VideoPresetInfo : Type := mkVideoPresetInfo
  { codec : Codec; resolution : Resolution; bitrateMbps : Z }.

(** [VideoPresetInfo.__str__] *)
Definition VideoPresetInfo_str (p : VideoPresetInfo) : string :=
  Codec_str (codec p) ++ " " ++ Resolution_name (resolution p) ++ ":"
  ++ Resolution_value (resolution p) ++ " "
  ++ PyStr.str_int (bitrateMbps p) ++ "Mbps".

Inductive VideoPreset : Type := h265_fhd_6 | h265_uhd_40 | av1_fhd_5 | av1_uhd_20.

Definition VideoPreset_name (p : VideoPreset) : string :=
  match p with
  | h265_fhd_6 => "h265_fhd_6"
  | h265_uhd_40 => "h265_uhd_40"
  | av1_fhd_5 => "av1_fhd_5"
  | av1_uhd_20 => "av1_uhd_20"
  end.

Definition VideoPreset_value (p : VideoPreset) : VideoPresetInfo :=
  match p with
  | h265_fhd_6 => mkVideoPresetInfo h265 fhd 6
  | h265_uhd_40 => mkVideoPresetInfo h265 uhd 40
  | av1_fhd_5 => mkVideoPresetInfo av1 fhd 5
  | av1_uhd_20 => mkVideoPresetInfo av1 uhd 20
  end.

Definition VideoPreset_eq_dec (a b : VideoPreset) : {a = b} + {a <> b}.
Proof. decide equality. Defined.

(** Iterating the enumeration: its members in declaration order. *)
Definition VideoPreset_members : list VideoPreset :=
  [h265_fhd_6; h265_uhd_40; av1_fhd_5; av1_uhd_20].

Definition get_preset_by_name (preset_name : string) : option VideoPresetInfo :=
  match find (fun p => String.eqb (VideoPreset_name p) preset_name)
             VideoPreset_members with
  | Some p => Some (VideoPreset_value p)
  | None => None
  end.

(* ================================================================== *)
(** ** Output path derivation (the loop body of [process_mp4_files]) *)
(* ================================================================== *)

Definition extra_info (preset : VideoPresetInfo) : string :=
  Resolution_name (resolution preset) ++ "_"
  ++ codec_name (Codec_value (codec preset)) ++ "_"
  ++ PyStr.str_int (bitrateMbps preset) ++ "mbps".

Definition output_file (input_file : Path) (preset : VideoPresetInfo) : exn + Path :=
  match with_stem input_file (stem input_file ++ "_" ++ extra_info preset) with
  | inl e => inl e
  | inr p => with_suffix p ("." ++ extension (Codec_value (codec preset)))
  end.

(** The test both branches of [get_mp4_files] apply to a path. *)
Definition is_mp4 (p : Path) : bool :=
  String.eqb (PyStr.lower (suffix p)) ".mp4".

(* ================================================================== *)
(** ** The file system *)
(* ================================================================== *)

(** A directory tree without symbolic links.  The entries of a directory
    are in the order in which the operating system lists them. *)
#[warnings="-register-all"]
Inductive Node : Type :=
| File
| Dir (entries : list (string * Node)).

(** Induction on directory trees, with the property known for every
    entry of a directory. *)
Fixpoint Node_tree_ind (Pr : Node -> Prop) (HF : Pr File)
  (HD : forall es, Forall (fun e => Pr (snd e)) es -> Pr (Dir es))
  (n : Node) : Pr n :=
  match n with
  | File => HF
  | Dir es =>
      HD es
        ((fix go (l : list (string * Node)) : Forall (fun e => Pr (snd e)) l :=
            match l with
            | [] => Forall_nil _
            | (k, m) :: r =>
                Forall_cons (k, m) (Node_tree_ind Pr HF HD m) (go r)
            end) es)
  end.

(** Error numbers of the operating system (Linux). *)
Definition ENOENT : Z := 2.
Definition EBADF : Z := 9.
Definition EACCES : Z := 13.
Definition ENOTDIR : Z := 20.
Definition ENAMETOOLONG : Z := 36.
Definition ELOOP : Z := 40.

(** The longest name a directory holds, and the length from which on a
    path is refused as a whole. *)
Definition NAME_MAX : nat := 255.
Definition PATH_MAX : nat := 4096.

(** A file system: the tree, the working directory, and the paths (by
    their text) at which [stat] fails for a reason the tree does not
    show, such as a directory that may not be searched, with the error
    number. *)
Record FS : Type := mkFS
  { root : Node; cwd : list string; faults : string -> option Z }.

Fixpoint find_entry (n : string) (es : list (string * Node)) : option Node :=
  match es with
  | [] => None
  | (k, v) :: r => if String.eqb k n then Some v else find_entry n r
  end.

(** The node at an absolute, normalised list of components. *)
Fixpoint node_at (n : Node) (comps : list string) : option Node :=
  match comps with
  | [] => Some n
  | c :: r =>
      match n with
      | Dir es =>
          match find_entry c es with
          | Some m => node_at m r
          | None => None
          end
      | File => None
      end
  end.

(** Path resolution as the kernel does it: every component is looked up
    in a directory, two dots step to the parent (the root is its own
    parent).  It ends at a place of the tree or with an error number: a
    name that is not there is [ENOENT], or [ENAMETOOLONG] when the
    directory could not even hold it; a component below a file is
    [ENOTDIR]. *)
Fixpoint walk (r : Node) (cur comps : list string) : Z + list string :=
  match comps with
  | [] => inr cur
  | c :: rest =>
      match node_at r cur with
      | Some (Dir es) =>
          if String.eqb c ".." then walk r (removelast cur) rest
          else
            match find_entry c es with
            | Some _ => walk r (cur ++ [c])%list rest
            | None =>
                inl (if (NAME_MAX <? String.length c)%nat
                     then ENAMETOOLONG else ENOENT)
            end
      | Some File => inl ENOTDIR
      | None => inl ENOENT
      end
  end.

(** [os.stat(p)]: the node at the path, or the error number. *)
Definition stat (fs : FS) (p : Path) : Z + Node :=
  match faults fs (str p) with
  | Some e => inl e
  | None =>
      if (PATH_MAX <=? String.length (str p))%nat then inl ENAMETOOLONG
      else
        let start := if String.eqb (anchor p) "" then cwd fs else [] in
        match walk (root fs) start (parts p) with
        | inl e => inl e
        | inr abs =>
            match node_at (root fs) abs with
            | Some n => inr n
            | None => inl ENOENT
            end
        end
  end.

(** What is at a path, when [stat] finds something. *)
Definition lookup (fs : FS) (p : Path) : option Node :=
  match stat fs p with
  | inr n => Some n
  | inl _ => None
  end.

(** What a test of pathlib does: it answers, or it raises the error that
    [stat] ended with.  A boolean stands for the test that answered it. *)
Inductive Answer : Type :=
| Answers (b : bool)
| Fails (e : exn).

Coercion Answers : bool >-> Answer.

(** The errors that pathlib takes for the answer False:
    [_ignore_error]. *)
Definition ignore_error (errno : Z) : bool :=
  existsb (Z.eqb errno) [ENOENT; ENOTDIR; EBADF; ELOOP].

(** The common shape of [exists], [is_file] and [is_dir]: the answer of
    [test] on what [stat] found, False on an ignored error, and any
    other error raised again. *)
Definition stat_test (test : Node -> bool) (fs : FS) (p : Path) : Answer :=
  match stat fs p with
  | inr n => Answers (test n)
  | inl e => if ignore_error e then Answers false
             else Fails (OSErrorOf e (str p))
  end.

(** [p.exists()], [p.is_file()], [p.is_dir()] *)
Definition path_exists (fs : FS) (p : Path) : Answer :=
  stat_test (fun _ => true) fs p.

Definition is_file (fs : FS) (p : Path) : Answer :=
  stat_test (fun n => match n with File => true | Dir _ => false end) fs p.

Definition is_dir (fs : FS) (p : Path) : Answer :=
  stat_test (fun n => match n with File => false | Dir _ => true end) fs p.

(** [p.rglob('*')] below a directory node: the pattern is [**/*], so
    every directory of the tree, in pre-order, lists all its entries
    (hidden ones too, files and directories alike).  Later CPython
    versions may order the same entries differently. *)
Fixpoint rglob_node (p : Path) (n : Node) : list Path :=
  match n with
  | File => []
  | Dir es =>
      (map (fun e => child p (fst e)) es
       ++ flat_map (fun e => match e with
                             | (k, Dir es' as d) => rglob_node (child p k) d
                             | (_, File) => []
                             end) es)%list
  end.

Definition rglob (fs : FS) (p : Path) : list Path :=
  match lookup fs p with
  | Some n => rglob_node p n
  | None => []
  end.

(** [q] names an entry somewhere below the directory [n] found at [p],
    and [m] is the node there. *)
Inductive entry_below : Path -> Node -> Path -> Node -> Prop :=
| entry_here p es k m :
    In (k, m) es -> entry_below p (Dir es) (child p k) m
| entry_deeper p es k d q m :
    In (k, d) es -> entry_below (child p k) d q m ->
    entry_below p (Dir es) q m.

(* ================================================================== *)
(** ** Worlds, events and the exception monad *)
(* ================================================================== *)

Inductive Level : Type := INFO | WARNING | ERROR.

(** What a run leaves behind that an observer can see. *)
Inductive Event : Type :=
| Stdout (line : string)
| Log (lvl : Level) (msg : string)
| LogProgress (index total : nat)
| Exec (cmd : string).

Record World : Type := mkWorld { fs : FS; trace : list Event }.

Inductive Result (A : Type) : Type :=
| Ok (a : A) (w : World)
| Raise (e : exn) (w : World).

Arguments Ok {A} a w.
Arguments Raise {A} e w.

Definition M (A : Type) : Type := World -> Result A.

Definition ret {A} (a : A) : M A := fun w => Ok a w.

Definition bind {A B} (m : M A) (k : A -> M B) : M B :=
  fun w => match m w with
           | Ok a w' => k a w'
           | Raise e w' => Raise e w'
           end.

Definition raise {A} (e : exn) : M A := fun w => Raise e w.

Notation "x <- m ;; k" := (bind m (fun x => k))
  (at level 61, m at next level, right associativity).
Notation "m ;;; k" := (bind m (fun _ => k))
  (at level 61, right associativity).

Definition emit (e : Event) : M unit :=
  fun w => Ok tt (mkWorld (fs w) (trace w ++ [e])%list).

Definition print (line : string) : M unit := emit (Stdout line).
Definition logging (lvl : Level) (msg : string) : M unit := emit (Log lvl msg).

Definition get_fs : M FS := fun w => Ok (fs w) w.

(** The answer of a test, or the exception it raised. *)
Definition ask (a : Answer) : M bool :=
  fun w => match a with
           | Answers b => Ok b w
           | Fails e => Raise e w
           end.

(** A value computed by pathlib, or the exception it raised. *)
Definition lift {A} (r : exn + A) : M A :=
  match r with
  | inl e => raise e
  | inr a => ret a
  end.

(** The commands that were handed to the shell, oldest first. *)
Fixpoint execs (t : list Event) : list string :=
  match t with
  | [] => []
  | Exec c :: r => c :: execs r
  | _ :: r => execs r
  end.

(** How the shell can end: it exits with a return code (127 when the
    tool is missing), or it cannot be started at all. *)
Inductive ShellResult : Type :=
| Exited (returncode : Z)
| SpawnFailed (msg : string).

(** [str(e)] for a [CalledProcessError] of a command that exited.  (For a
    negative return code CPython names the signal instead.) *)
Definition CalledProcessError_str (returncode : Z) (cmd : string) : string :=
  "Command '" ++ cmd ++ "' returned non-zero exit status "
  ++ PyStr.str_int returncode ++ ".".

(* ================================================================== *)
(** ** The program *)
(* ================================================================== *)

(** The double quote character, and a string between double quotes. *)
Definition dquote : string := String "034"%char EmptyString.

Definition quoted (s : string) : string := dquote ++ s ++ dquote.

(** The command line of [exec_ffmpeg]. *)
Definition ffmpeg_cmd (input_path output_path : Path) (preset : VideoPresetInfo)
  : string :=
  "ffmpeg -i " ++ quoted (str input_path)
  ++ " -c:v " ++ lib (Codec_value (codec preset))
  ++ " -crf 23 -preset medium "
  ++ "-vf " ++ quoted ("scale=" ++ Resolution_value (resolution preset))
  ++ " -c:a copy "
  ++ "-loglevel error " ++ quoted (str output_path).

Arguments ffmpeg_cmd : simpl never.

Section Program.

(** The shell with [ffmpeg] behind it: from the file system and the
    command line to how it ended and the file system it left. *)
Variable shell : FS -> string -> ShellResult * FS.

(** [subprocess.run(cmd, check=True, shell=True)] *)
Definition subprocess_run (cmd : string) : M unit :=
  fun w =>
    let (r, fs') := shell (fs w) cmd in
    let w' := mkWorld fs' (trace w ++ [Exec cmd])%list in
    match r with
    | Exited rc =>
        if Z.eqb rc 0 then Ok tt w' else Raise (CalledProcessError rc cmd) w'
    | SpawnFailed msg => Raise (OSError msg) w'
    end.

(** [try: body except subprocess.CalledProcessError as e: handler] *)
Definition try_except_CalledProcessError {A}
  (body : M A) (handler : Z -> string -> M A) : M A :=
  fun w => match body w with
           | Raise (CalledProcessError rc cmd) w' => handler rc cmd w'
           | r => r
           end.

Definition exec_ffmpeg (input_path output_path : Path) (preset : VideoPresetInfo)
  : M unit :=
  logging INFO ("converting: " ++ str input_path ++ " to " ++ str output_path) ;;;
  logging INFO ("input_path: " ++ str input_path) ;;;
  logging INFO ("output_path: " ++ str output_path) ;;;
  f <- get_fs ;;
  input_exists <- ask (path_exists f input_path) ;;
  if negb input_exists then
    let error_msg := "Input file " ++ str input_path ++ " does not exist." in
    logging ERROR error_msg ;;;
    raise (FileNotFoundError error_msg)
  else
  output_exists <- ask (path_exists f output_path) ;;
  if output_exists then
    logging WARNING ("Output file " ++ str output_path
                     ++ " already exists. Skipping conversion.")
  else
    let cmd := ffmpeg_cmd input_path output_path preset in
    logging INFO ("Executing command: " ++ cmd) ;;;
    try_except_CalledProcessError
      (subprocess_run cmd ;;;
       logging INFO ("Conversion completed successfully. Output file: "
                     ++ str output_path))
      (fun rc c =>
         logging ERROR ("Error occurred during ffmpeg execution: "
                        ++ CalledProcessError_str rc c) ;;;
         raise (CalledProcessError rc c)).

(** The [for] loop of [process_mp4_files]; [index] is what [enumerate]
    hands out and [total_files] the length of the whole list. *)
Fixpoint process_loop (total_files index : nat) (mp4_files : list Path)
  (preset : VideoPresetInfo) : M unit :=
  match mp4_files with
  | [] => ret tt
  | input_file :: rest =>
      out <- lift (output_file input_file preset) ;;
      exec_ffmpeg input_file out preset ;;;
      emit (LogProgress index total_files) ;;;
      process_loop total_files (S index) rest preset
  end.

Definition process_mp4_files (mp4_files : list Path) (preset : VideoPresetInfo)
  : M unit :=
  process_loop (length mp4_files) 1 mp4_files preset.

(** The directory branch appends to [mp4_files] inside the loop. *)
Definition collect_mp4 (found : list Path) : list Path :=
  fold_left (fun mp4_files file =>
               if is_mp4 file then (mp4_files ++ [file])%list else mp4_files)
            found [].

Definition get_mp4_files (path : Path) : M (list Path) :=
  f <- get_fs ;;
  file <- ask (is_file f path) ;;
  if file && is_mp4 path then ret [path]
  else
  dir <- ask (is_dir f path) ;;
  if dir then ret (collect_mp4 (rglob f path))
  else
    print (str path ++ " is neither a valid file nor a folder.") ;;;
    ret [].

Definition main (input_path : Path) (preset : VideoPresetInfo) : M unit :=
  mp4_files <- get_mp4_files input_path ;;
  process_mp4_files mp4_files preset.

(** The namespace that [parser.parse_args()] returns.  [choices] makes
    argparse refuse any preset that is not a member name, so
    [get_preset_by_name] finds it; the branch for [None] below is never
    taken after parsing. *)
Record Args : Type := mkArgs
  { arg_input : option string; arg_preset : string; arg_list_presets : bool }.

Definition preset_line (member : VideoPreset) : string :=
  "  * " ++ VideoPreset_name member ++ ": "
  ++ VideoPresetInfo_str (VideoPreset_value member).

Fixpoint print_all (lines : list string) : M unit :=
  match lines with
  | [] => ret tt
  | l :: r => print l ;;; print_all r
  end.

(** The body under the [__main__] guard, after argument parsing. *)
Definition script (args : Args) : M unit :=
  if arg_list_presets args then
    print "" ;;;
    print "PRESETS:" ;;;
    print_all (map preset_line VideoPreset_members) ;;;
    print "" ;;;
    raise (SystemExit 1)
  else
    match get_preset_by_name (arg_preset args) with
    | None => raise (TypeError "preset is None")
    | Some preset =>
        logging INFO ("input: " ++ match arg_input args with
                                   | Some s => s
                                   | None => "None"
                                   end) ;;;
        logging INFO ("preset: " ++ VideoPresetInfo_str preset) ;;;
        match arg_input args with
        | None => raise (TypeError "expected str, bytes or os.PathLike object, not NoneType")
        | Some s => main (of_str s) preset
        end
    end.

End Program.

(* ================================================================== *)
(** ** What the shell makes of a command line *)
(* ================================================================== *)

(** [shell=True] hands the command to [sh -c].  The command line of
    [exec_ffmpeg] uses two features of the shell language: blanks
    separate words, and a stretch between double quotes belongs to the
    word around it.  [sh_words] cuts such a line into the argument
    vector of the process; on anything else the shell would interpret
    (expansions, escapes, operators, an open quote) it answers [None]. *)
Module Sh.

Definition is_blank (c : ascii) : bool :=
  Ascii.eqb c " "%char || Ascii.eqb c "009"%char.

Definition is_dquote (c : ascii) : bool := Ascii.eqb c "034"%char.

(** Characters the shell still interprets between double quotes. *)
Definition special_in_dquotes (c : ascii) : bool :=
  Ascii.eqb c "$"%char || Ascii.eqb c "`"%char || Ascii.eqb c "\"%char.

(** Characters with a meaning of their own outside quotes. *)
Definition special_outside (c : ascii) : bool :=
  special_in_dquotes c
  || existsb (Ascii.eqb c)
       ["'"; "|"; "&"; ";"; "<"; ">"; "("; ")"; "*"; "?"; "["; "]";
        "#"; "~"; "{"; "}"; "!"; "%"; "010"]%char.

Definition snoc (w : option string) (c : ascii) : option string :=
  Some (match w with Some s => s | None => EmptyString end
        ++ String c EmptyString).

Definition flush (w : option string) (rest : option (list string))
  : option (list string) :=
  match w, rest with
  | Some s, Some l => Some (s :: l)
  | None, Some l => Some l
  | _, None => None
  end.

(** [inq]: inside double quotes; [w]: the word being read, if any. *)
Fixpoint split_words (inq : bool) (w : option string) (s : string)
  : option (list string) :=
  match s with
  | EmptyString => if inq then None else flush w (Some [])
  | String c t =>
      if inq then
        if is_dquote c then split_words false w t
        else if special_in_dquotes c then None
        else split_words true (snoc w c) t
      else
        if is_dquote c then
          split_words true
            (Some (match w with Some s' => s' | None => EmptyString end)) t
        else if is_blank c then flush w (split_words false None t)
        else if special_outside c then None
        else split_words false (snoc w c) t
  end.

(** An equals sign makes a word before the command name an assignment;
    such a line is not covered either. *)
Definition sh_words (cmd : string) : option (list string) :=
  match split_words false None cmd with
  | Some (w0 :: r) =>
      if PyStr.contains "="%char w0 then None else Some (w0 :: r)
  | other => other
  end.

(** A string that double quotes protect completely. *)
Fixpoint plain (s : string) : bool :=
  match s with
  | EmptyString => true
  | String c t => negb (is_dquote c) && negb (special_in_dquotes c) && plain t
  end.

End Sh.

(* ================================================================== *)
(** ** Vocabulary for the statements *)
(* ================================================================== *)

(** The three lines [exec_ffmpeg] logs before it looks at the files. *)
Definition exec_prologue (i o : Path) : list Event :=
  [Log INFO ("converting: " ++ str i ++ " to " ++ str o);
   Log INFO ("input_path: " ++ str i);
   Log INFO ("output_path: " ++ str o)].

Definition missing_msg (i : Path) : string :=
  "Input file " ++ str i ++ " does not exist.".

Definition skip_msg (o : Path) : string :=
  "Output file " ++ str o ++ " already exists. Skipping conversion.".

(** Why a finished shell makes [subprocess.run] raise, if it does. *)
Definition shell_failure (r : ShellResult) (cmd : string) : option exn :=
  match r with
  | Exited rc => if Z.eqb rc 0 then None else Some (CalledProcessError rc cmd)
  | SpawnFailed msg => Some (OSError msg)
  end.

(** The line [get_mp4_files] prints in its last branch. *)
Definition invalid_path_line (p : Path) : string :=
  str p ++ " is neither a valid file nor a folder.".

(** The paths a batch reads or writes: its input files and the output
    paths derived from them. *)
Definition batch_paths (files : list Path) (P : VideoPresetInfo) : list Path :=
  (files ++ flat_map (fun i => match output_file i P with
                               | inr o => [o]
                               | inl _ => []
                               end) files)%list.

(* ================================================================== *)
(** ** Sample worlds *)
(* ================================================================== *)

(** A working directory with two clips and a text file. *)
Definition fs_two_clips : FS :=
  mkFS (Dir [("movie.mp4", File); ("notes.txt", File); ("other.mp4", File)]) []
    (fun _ => None).

(** The same directory after [movie.mp4] was converted with [av1_fhd_5]. *)
Definition fs_movie_done : FS :=
  mkFS (Dir [("movie.mp4", File); ("notes.txt", File); ("other.mp4", File);
             ("movie_fhd_av1_5mbps.mkv", File)]) []
    (fun _ => None).

(** A directory where only the output of an earlier run is left. *)
Definition fs_output_only : FS :=
  mkFS (Dir [("movie_fhd_av1_5mbps.mkv", File)]) []
    (fun _ => None).

(** A shell in which [ffmpeg] always fails and writes nothing. *)
Definition shell_failing : FS -> string -> ShellResult * FS :=
  fun f _ => (Exited 1, f).

(** A shell that converts [movie.mp4] with [av1_fhd_5] and fails on
    every other command. *)
Definition shell_movie : FS -> string -> ShellResult * FS :=
  fun f cmd =>
    if String.eqb cmd
         (ffmpeg_cmd (of_str "movie.mp4") (of_str "movie_fhd_av1_5mbps.mkv")
            (VideoPreset_value av1_fhd_5))
    then (Exited 0, fs_movie_done)
    else (Exited 1, f).

(** The directory of the specification's discovery example, as [d]. *)
Definition fs_spec_example : FS :=
  mkFS (Dir [("d", Dir [("a.mp4", File); ("a.MP4", File); ("b.txt", File);
                        ("sub", Dir [("c.mp4", File)])])]) []
    (fun _ => None).

(** A directory [videos] with a clip and a sub-directory named like one. *)
Definition fs_mp4_dir : FS :=
  mkFS (Dir [("videos", Dir [("a.mp4", File);
                             ("clips.mp4", Dir [("notes.txt", File)])])]) []
    (fun _ => None).

(** A path of one name of 300 letters, more than a directory holds. *)
Definition long_name : Path := of_str (PyStr.replicate 300 "a"%char).

(** A clip whose name of 254 letters leaves no room for what a preset
    adds to it, alone in its directory. *)
Definition long_clip : Path := of_str (PyStr.replicate 250 "a"%char ++ ".mp4").

Definition fs_long_clip : FS :=
  mkFS (Dir [(PyStr.replicate 250 "a"%char ++ ".mp4", File)]) []
    (fun _ => None).

(** A directory [locked] that may not be searched: [stat] fails with
    [EACCES] at the clip below it. *)
Definition fs_locked : FS :=
  mkFS (Dir [("locked", Dir [("clip.mp4", File)])]) []
    (fun s => if String.eqb s "locked/clip.mp4" then Some EACCES else None).

(** A fresh run in the directory with the two clips. *)
Definition world_two_clips : World := mkWorld fs_two_clips [].

(** A directory [d] after its clip was converted with [h265_fhd_6]: the
    output is an [.mp4] file itself. *)
Definition fs_h265_done : FS :=
  mkFS (Dir [("d", Dir [("movie.mp4", File);
                        ("movie_fhd_h265_6mbps.mp4", File)])]) []
    (fun _ => None).

(** A file name with a double quote in it, between [my] and
    [clip.mp4]. *)
Definition quote_clip : Path := of_str ("my" ++ dquote ++ "clip.mp4").

(* ================================================================== *)
(** ** Further vocabulary *)
(* ================================================================== *)

(** The world a computation ends in, whether it returned or raised. *)
Definition world_of {A} (r : Result A) : World :=
  match r with
  | Ok _ w => w
  | Raise _ w => w
  end.

(** The progress lines of a trace, as pairs of index and total. *)
Fixpoint progress (t : list Event) : list (nat * nat) :=
  match t with
  | [] => []
  | LogProgress i n :: r => (i, n) :: progress r
  | _ :: r => progress r
  end.

(** How many warnings a trace holds. *)
Fixpoint warnings (t : list Event) : nat :=
  match t with
  | [] => 0
  | Log WARNING _ :: r => S (warnings r)
  | _ :: r => warnings r
  end.

(* ================================================================== *)
(** * Properties *)
(* ================================================================== *)

(** ** Strings *)

Module PyStrFacts.
Import PyStr.

Lemma append_nil_r (s : string) : s ++ "" = s.
Proof. induction s as [|a s IH]; simpl; [reflexivity | now rewrite IH]. Qed.

Lemma append_assoc (a b c : string) : (a ++ b) ++ c = a ++ (b ++ c).
Proof. induction a as [|x a IH]; simpl; [reflexivity | now rewrite IH]. Qed.

Lemma length_append (a b : string) :
  String.length (a ++ b) = String.length a + String.length b.
Proof. induction a as [|x a IH]; simpl; [reflexivity | now rewrite IH]. Qed.

Lemma take_drop (i : nat) (s : string) : take i s ++ drop i s = s.
Proof.
  revert i; induction s as [|a s IH]; intros [|i]; simpl; try reflexivity.
  now rewrite IH.
Qed.

Lemma take_app_length (a b : string) : take (String.length a) (a ++ b) = a.
Proof. induction a as [|x a IH]; simpl; [now destruct b | now rewrite IH]. Qed.

Lemma drop_app_length (a b : string) : drop (String.length a) (a ++ b) = b.
Proof. induction a as [|x a IH]; simpl; [now destruct b | exact IH]. Qed.

Lemma length_drop (i : nat) (s : string) :
  String.length (drop i s) = String.length s - i.
Proof.
  revert i; induction s as [|a s IH]; intros [|i]; simpl; try reflexivity.
  apply IH.
Qed.

Lemma contains_app (c : ascii) (a b : string) :
  contains c (a ++ b) = contains c a || contains c b.
Proof.
  induction a as [|x a IH]; simpl; [reflexivity|].
  now rewrite IH, orb_assoc.
Qed.

Lemma contains_take (c : ascii) (i : nat) (s : string) :
  contains c s = false -> contains c (take i s) = false.
Proof.
  intros H. rewrite <- (take_drop i s), contains_app in H.
  now apply orb_false_elim in H.
Qed.

Lemma contains_drop (c : ascii) (i : nat) (s : string) :
  contains c s = false -> contains c (drop i s) = false.
Proof.
  intros H. rewrite <- (take_drop i s), contains_app in H.
  now apply orb_false_elim in H.
Qed.

Lemma rfind_none_contains (c : ascii) (s : string) :
  rfind c s = None <-> contains c s = false.
Proof.
  induction s as [|a s IH]; simpl; [tauto|].
  destruct (rfind c s) as [i|].
  - split; [discriminate|]. intros H. apply orb_false_elim in H.
    destruct IH as [_ IH]. now specialize (IH (proj2 H)).
  - destruct IH as [IH _]. rewrite (IH eq_refl), orb_false_r.
    destruct (Ascii.eqb a c); split; congruence.
Qed.

Lemma rfind_lt (c : ascii) (s : string) (i : nat) :
  rfind c s = Some i -> i < String.length s.
Proof.
  revert i; induction s as [|a s IH]; simpl; intros i H; [discriminate|].
  destruct (rfind c s) as [j|].
  - injection H as <-. specialize (IH j eq_refl). lia.
  - destruct (Ascii.eqb a c); [injection H as <-; lia | discriminate].
Qed.

(** The last occurrence in [a ++ b] is the last one in [b] when there is
    one, else the last one in [a]. *)
Lemma rfind_app (c : ascii) (a b : string) :
  rfind c (a ++ b) =
  match rfind c b with
  | Some j => Some (String.length a + j)
  | None => rfind c a
  end.
Proof.
  induction a as [|x a IH]; simpl.
  - now destruct (rfind c b).
  - rewrite IH. destruct (rfind c b); [reflexivity|].
    reflexivity.
Qed.

(** What follows the last occurrence starts with the character and holds
    no other one. *)
Lemma rfind_drop (c : ascii) (s : string) (i : nat) :
  rfind c s = Some i -> rfind c (drop i s) = Some 0.
Proof.
  revert i; induction s as [|a s IH]; simpl; intros i H; [discriminate|].
  destruct (rfind c s) as [j|] eqn:E.
  - injection H as <-. simpl. now apply IH.
  - destruct (Ascii.eqb a c) eqn:Ea; [|discriminate].
    injection H as <-. simpl. now rewrite E, Ea.
Qed.

Lemma str_uint_no_sep (c : ascii) (d : Decimal.uint) :
  (nat_of_ascii c < 48 \/ 57 < nat_of_ascii c) ->
  contains c (NilEmpty.string_of_uint d) = false.
Proof.
  intros Hc.
  assert (Hd : forall x, 48 <= nat_of_ascii x <= 57 -> Ascii.eqb x c = false).
  { intros x Hx. apply Ascii.eqb_neq. intros ->. lia. }
  induction d; cbn [contains NilEmpty.string_of_uint]; try reflexivity;
    rewrite IHd, orb_false_r; apply Hd; vm_compute; lia.
Qed.

Lemma str_int_no_slash (n : Z) : contains "/"%char (str_int n) = false.
Proof.
  assert (H : forall d, contains "/"%char (NilZero.string_of_uint d) = false).
  { intros d. unfold NilZero.string_of_uint.
    destruct d; try reflexivity; apply str_uint_no_sep; vm_compute; lia. }
  unfold str_int, NilZero.string_of_int.
  destruct (Z.to_int n); simpl; now rewrite H.
Qed.

End PyStrFacts.

(** ** Path names *)

Module PathFacts.
Import PyStr PyStrFacts.

Lemma name_no_sep (p : Path) : wf_path p -> contains sep (name p) = false.
Proof.
  unfold wf_path, name. induction (parts p) as [|c l IH]; intros H.
  - reflexivity.
  - inversion H as [|? ? Hc Hl]; subst. destruct l as [|d l]; [exact Hc|].
    now apply IH.
Qed.

Lemma name_child (p : Path) (n : string) :
  name (mkPath (anchor p) (removelast (parts p) ++ [n])) = n.
Proof. unfold name; simpl. apply last_last. Qed.

Lemma parent_child (p : Path) (n : string) :
  parent (mkPath (anchor p) (removelast (parts p) ++ [n])) = parent p.
Proof. unfold parent; simpl. now rewrite removelast_last. Qed.

(** A non-empty suffix starts at the last dot, which is neither the first
    nor the last character of the name. *)
Lemma name_suffix_split (n : string) :
  name_suffix n <> "" ->
  exists i, rfind dot n = Some i /\ 0 < i /\ i < String.length n - 1
            /\ name_suffix n = drop i n /\ name_stem n = take i n.
Proof.
  unfold name_suffix, name_stem. intros H.
  destruct (rfind dot n) as [i|]; [|congruence].
  destruct ((0 <? i)%nat && (i <? String.length n - 1)%nat) eqn:E; [|congruence].
  apply andb_prop in E. destruct E as [E1 E2].
  apply Nat.ltb_lt in E1, E2. exists i. repeat split; assumption.
Qed.

Lemma name_stem_suffix (n : string) : name_stem n ++ name_suffix n = n.
Proof.
  unfold name_suffix, name_stem. destruct (rfind dot n) as [i|].
  - destruct ((0 <? i)%nat && (i <? String.length n - 1)%nat).
    + apply take_drop.
    + apply append_nil_r.
  - apply append_nil_r.
Qed.

(** Putting any non-empty text in front of a suffix keeps it the suffix. *)
Lemma name_suffix_prepend (a n : string) :
  name_suffix n <> "" -> a <> "" ->
  name_suffix (a ++ name_suffix n) = name_suffix n.
Proof.
  intros Hs Ha. destruct (name_suffix_split _ Hs) as (i & Hi & H0 & H1 & Es & _).
  rewrite Es. unfold name_suffix at 1.
  rewrite rfind_app, (rfind_drop _ _ _ Hi), length_append, length_drop, Nat.add_0_r.
  assert (La : 0 < String.length a) by (destruct a; simpl; [congruence | lia]).
  replace ((0 <? String.length a)%nat
           && (String.length a <? String.length a + (String.length n - i) - 1)%nat)
    with true.
  - apply drop_app_length.
  - symmetry. apply andb_true_intro. split; apply Nat.ltb_lt; lia.
Qed.

Lemma output_file_suffixed (I : Path) (P : VideoPresetInfo) :
  wf_path I -> suffix I <> "" ->
  output_file I P =
  inr (mkPath (anchor I)
         (removelast (parts I)
          ++ [(stem I ++ "_" ++ extra_info P ++ "."
               ++ extension (Codec_value (codec P)))%string])%list).
Proof.
  intros Hwf Hs. unfold suffix in Hs.
  pose proof (name_no_sep _ Hwf) as Hsep.
  destruct (name_suffix_split _ Hs) as (i & Hi & H0 & H1 & Es & Et).
  set (a := stem I ++ "_" ++ extra_info P).
  assert (Ha : a <> "").
  { unfold a, stem. rewrite Et. destruct (take i (name I)); discriminate. }
  assert (Hname : String.eqb (name I) "" = false).
  { apply String.eqb_neq. intros E. rewrite E in Hs. now apply Hs. }
  assert (Hasep : contains sep a = false).
  { unfold a, stem, extra_info. rewrite Et.
    rewrite !contains_app, (contains_take _ _ _ Hsep), str_int_no_slash.
    now destruct (codec P), (resolution P). }
  unfold output_file, with_stem, with_name. fold a. rewrite Hname.
  unfold suffix.
  assert (Hn1 : String.eqb (a ++ name_suffix (name I)) "" = false).
  { apply String.eqb_neq. destruct a; [congruence | discriminate]. }
  assert (Hn2 : String.eqb (a ++ name_suffix (name I)) "." = false).
  { apply String.eqb_neq. intros E.
    apply (f_equal String.length) in E. rewrite length_append in E.
    rewrite Es, length_drop in E. simpl in E.
    destruct a; [congruence | simpl in E; lia]. }
  rewrite Hn1, Hn2, contains_app, Hasep.
  rewrite Es at 1. rewrite (contains_drop _ _ _ Hsep). simpl orb. cbv iota.
  unfold with_suffix. rewrite name_child. unfold suffix. rewrite name_child.
  rewrite (name_suffix_prepend a _ Hs Ha), Hn1.
  replace (contains sep ("." ++ extension (Codec_value (codec P)))) with false
    by now destruct (codec P).
  replace (negb (String.eqb ("." ++ extension (Codec_value (codec P))) "")
           && negb (startswith dot ("." ++ extension (Codec_value (codec P))))
           || String.eqb ("." ++ extension (Codec_value (codec P))) ".")
    with false by now destruct (codec P).
  replace (String.eqb (name_suffix (name I)) "") with false
    by (symmetry; now apply String.eqb_neq).
  cbv iota. simpl parts. simpl anchor.
  rewrite removelast_last, length_append, Nat.add_sub, take_app_length.
  unfold a. now rewrite !append_assoc.
Qed.

End PathFacts.

(** ** Output paths *)

Lemma is_mp4_suffix (p : Path) : is_mp4 p = true -> suffix p <> "".
Proof.
  unfold is_mp4. intros H E. rewrite E in H. discriminate.
Qed.

Lemma of_str_wf (s : string) : wf_path (of_str s).
Proof.
  unfold wf_path, of_str; simpl. apply incl_Forall with (l1 := PyStr.split sep s).
  - intros c Hc. now apply filter_In in Hc.
  - induction s as [|a s IH]; simpl.
    + repeat constructor.
    + destruct (Ascii.eqb a sep) eqn:E.
      * constructor; [reflexivity | exact IH].
      * destruct (PyStr.split sep s) as [|h r]; constructor;
          try (inversion IH; subst); simpl; rewrite ?E; auto.
Qed.

(** C1.  For every input file [I] (a well-formed path with the [.mp4]
    extension, in any letter case) and every preset [P], the output path
    is computed without error, lies in the directory of [I], and its name
    is [{stem}_{resolution name}_{codec name}_{bitrate}mbps.{extension}]. *)
Theorem output_path_formula (I : Path) (P : VideoPresetInfo) :
  wf_path I -> is_mp4 I = true ->
  exists out,
    output_file I P = inr out
    /\ parent out = parent I
    /\ name out =
       stem I ++ "_" ++ Resolution_name (resolution P) ++ "_"
       ++ codec_name (Codec_value (codec P)) ++ "_"
       ++ PyStr.str_int (bitrateMbps P) ++ "mbps."
       ++ extension (Codec_value (codec P)).
Proof.
  intros Hwf Hmp4. eexists. split; [|split].
  - apply PathFacts.output_file_suffixed; [exact Hwf | now apply is_mp4_suffix].
  - apply PathFacts.parent_child.
  - rewrite PathFacts.name_child. unfold extra_info.
    now rewrite !PyStrFacts.append_assoc.
Qed.

(** The instance the specification names: [movie.mp4] under [av1_fhd_5]. *)
Lemma output_path_formula_movie :
  wf_path (of_str "movie.mp4")
  /\ is_mp4 (of_str "movie.mp4") = true
  /\ exists out,
       output_file (of_str "movie.mp4") (VideoPreset_value av1_fhd_5) = inr out
       /\ parent out = parent (of_str "movie.mp4")
       /\ name out = "movie_fhd_av1_5mbps.mkv".
Proof.
  split; [apply of_str_wf | split; [reflexivity|]].
  exact (output_path_formula (of_str "movie.mp4") (VideoPreset_value av1_fhd_5)
           (of_str_wf "movie.mp4") eq_refl).
Defined.

Example output_file_movie :
  output_file (of_str "movie.mp4") (VideoPreset_value av1_fhd_5)
  = inr (of_str "movie_fhd_av1_5mbps.mkv").
Proof. reflexivity. Qed.

Example output_file_nested :
  output_file (of_str "/data/My Clips/a.b.MP4") (VideoPreset_value h265_uhd_40)
  = inr (of_str "/data/My Clips/a.b_uhd_h265_40mbps.mp4").
Proof. reflexivity. Qed.

(** Outside the input files the formula can fail: a name that ends in a
    dot has no suffix, but the dot becomes one once the preset is added. *)
Example output_file_trailing_dot :
  output_file (of_str "clip.") (VideoPreset_value av1_fhd_5)
  = inr (of_str "clip.mkv").
Proof. reflexivity. Qed.

(** ** The batch runner *)

Lemma execs_app (a b : list Event) : execs (a ++ b) = (execs a ++ execs b)%list.
Proof.
  induction a as [|e a IH]; simpl; [reflexivity|].
  destruct e; simpl; now rewrite IH.
Qed.

Section Runner.

Variable shell : FS -> string -> ShellResult * FS.

Lemma exec_ffmpeg_missing (i o : Path) (P : VideoPresetInfo) (w : World) :
  path_exists (fs w) i = false ->
  exec_ffmpeg shell i o P w =
  Raise (FileNotFoundError (missing_msg i))
    (mkWorld (fs w)
       (trace w ++ exec_prologue i o ++ [Log ERROR (missing_msg i)])%list).
Proof.
  intros H. unfold exec_ffmpeg, bind, logging, emit, get_fs, raise; simpl.
  rewrite H; simpl. unfold missing_msg, exec_prologue.
  now rewrite <- !app_assoc.
Qed.

Lemma exec_ffmpeg_skip (i o : Path) (P : VideoPresetInfo) (w : World) :
  path_exists (fs w) i = true -> path_exists (fs w) o = true ->
  exec_ffmpeg shell i o P w =
  Ok tt (mkWorld (fs w)
           (trace w ++ exec_prologue i o ++ [Log WARNING (skip_msg o)])%list).
Proof.
  intros Hi Ho. unfold exec_ffmpeg, bind, logging, emit, get_fs; simpl.
  rewrite Hi, Ho; simpl. unfold skip_msg, exec_prologue.
  now rewrite <- !app_assoc.
Qed.

Lemma exec_ffmpeg_run (i o : Path) (P : VideoPresetInfo) (w : World)
  (r : ShellResult) (fs' : FS) :
  path_exists (fs w) i = true -> path_exists (fs w) o = false ->
  shell (fs w) (ffmpeg_cmd i o P) = (r, fs') ->
  let cmd := ffmpeg_cmd i o P in
  let before := (trace w ++ exec_prologue i o
                 ++ [Log INFO ("Executing command: " ++ cmd); Exec cmd])%list in
  exec_ffmpeg shell i o P w =
  match r with
  | Exited rc =>
      if Z.eqb rc 0 then
        Ok tt (mkWorld fs'
                 (before ++ [Log INFO ("Conversion completed successfully. Output file: "
                                       ++ str o)])%list)
      else
        Raise (CalledProcessError rc cmd)
          (mkWorld fs'
             (before ++ [Log ERROR ("Error occurred during ffmpeg execution: "
                                    ++ CalledProcessError_str rc cmd)])%list)
  | SpawnFailed msg => Raise (OSError msg) (mkWorld fs' before)
  end.
Proof.
  intros Hi Ho Hsh. cbv zeta.
  unfold exec_ffmpeg, bind, logging, emit, get_fs, raise,
    try_except_CalledProcessError, subprocess_run; simpl.
  rewrite Hi, Ho; simpl. rewrite Hsh.
  unfold exec_prologue.
  destruct r as [rc|msg]; [destruct (Z.eqb rc 0)|]; simpl;
    now rewrite <- !app_assoc.
Qed.

(** A test that raises ends [exec_ffmpeg] with its exception, after the
    three lines and before anything else. *)
Lemma exec_ffmpeg_input_fails (i o : Path) (P : VideoPresetInfo) (w : World)
  (e : exn) :
  path_exists (fs w) i = Fails e ->
  exec_ffmpeg shell i o P w =
  Raise e (mkWorld (fs w) (trace w ++ exec_prologue i o)%list).
Proof.
  intros H. unfold exec_ffmpeg, bind, logging, emit, get_fs, ask; simpl.
  rewrite H. unfold exec_prologue. now rewrite <- !app_assoc.
Qed.

Lemma exec_ffmpeg_output_fails (i o : Path) (P : VideoPresetInfo) (w : World)
  (e : exn) :
  path_exists (fs w) i = true -> path_exists (fs w) o = Fails e ->
  exec_ffmpeg shell i o P w =
  Raise e (mkWorld (fs w) (trace w ++ exec_prologue i o)%list).
Proof.
  intros Hi Ho. unfold exec_ffmpeg, bind, logging, emit, get_fs, ask; simpl.
  rewrite Hi; simpl. rewrite Ho. unfold exec_prologue.
  now rewrite <- !app_assoc.
Qed.

(** The loop over [pre ++ post] is the loop over [pre] followed, if that
    did not raise, by the loop over [post]. *)
Lemma process_loop_app (total i : nat) (pre post : list Path)
  (P : VideoPresetInfo) (w : World) :
  process_loop shell total i (pre ++ post) P w =
  match process_loop shell total i pre P w with
  | Ok _ w1 => process_loop shell total (i + length pre) post P w1
  | Raise e w1 => Raise e w1
  end.
Proof.
  revert i w. induction pre as [|f pre IH]; intros i w; simpl.
  - now rewrite Nat.add_0_r.
  - unfold bind. destruct (lift (output_file f P) w) as [out w0|e w0]; [|reflexivity].
    destruct (exec_ffmpeg shell f out P w0) as [[] w1|e w1]; [|reflexivity].
    destruct (emit (LogProgress i total) w1) as [[] w2|e w2]; [|reflexivity].
    rewrite IH. now rewrite Nat.add_succ_r.
Qed.

(** A file whose conversion raises ends the loop there: the files behind
    it do not matter. *)
Lemma process_loop_abort (total i : nat) (f out : Path) (post : list Path)
  (P : VideoPresetInfo) (w w' : World) (e : exn) :
  output_file f P = inr out ->
  exec_ffmpeg shell f out P w = Raise e w' ->
  process_loop shell total i (f :: post) P w = Raise e w'.
Proof.
  intros Ho He. simpl. unfold bind. rewrite Ho. simpl. unfold ret.
  now rewrite He.
Qed.

End Runner.

Section Batch.

Variable shell : FS -> string -> ShellResult * FS.

(** C2.  When the files before [f] were processed and the shell then
    fails on the command for [f] (it exits with a non-zero code, or it
    cannot be started), [process_mp4_files] raises that failure; the
    world it leaves holds the command for [f] as the last one handed to
    the shell and nothing about the files behind [f]. *)
Theorem failure_stops_batch (pre post : list Path) (f out : Path)
  (P : VideoPresetInfo) (w w1 : World) (r : ShellResult) (fs' : FS) (e : exn) :
  process_loop shell (length (pre ++ f :: post)) 1 pre P w = Ok tt w1 ->
  output_file f P = inr out ->
  path_exists (fs w1) f = true ->
  path_exists (fs w1) out = false ->
  shell (fs w1) (ffmpeg_cmd f out P) = (r, fs') ->
  shell_failure r (ffmpeg_cmd f out P) = Some e ->
  exists w2,
    process_mp4_files shell (pre ++ f :: post) P w = Raise e w2
    /\ fs w2 = fs'
    /\ trace w2 =
       (trace w1 ++ exec_prologue f out
        ++ [Log INFO ("Executing command: " ++ ffmpeg_cmd f out P);
            Exec (ffmpeg_cmd f out P)]
        ++ match r with
           | Exited rc =>
               [Log ERROR ("Error occurred during ffmpeg execution: "
                           ++ CalledProcessError_str rc (ffmpeg_cmd f out P))]
           | SpawnFailed _ => []
           end)%list
    /\ execs (trace w2) = (execs (trace w1) ++ [ffmpeg_cmd f out P])%list.
Proof.
  intros Hpre Hout Hi Ho Hsh Hfail.
  pose proof (exec_ffmpeg_run shell f out P w1 r fs' Hi Ho Hsh) as Hrun.
  cbv zeta in Hrun.
  unfold process_mp4_files. rewrite process_loop_app, Hpre.
  destruct r as [rc|msg]; simpl in Hfail.
  - destruct (Z.eqb rc 0); [discriminate|]. injection Hfail as <-.
    eexists. split; [|split; [|split]].
    + eapply process_loop_abort; eassumption.
    + reflexivity.
    + cbn [trace]. now rewrite <- !app_assoc.
    + cbn [trace]. rewrite !execs_app. simpl. now rewrite app_nil_r.
  - injection Hfail as <-.
    eexists. split; [|split; [|split]].
    + eapply process_loop_abort; eassumption.
    + reflexivity.
    + cbn [trace]. now rewrite app_nil_r.
    + cbn [trace]. rewrite !execs_app. reflexivity.
Qed.

(** C6.  When the files before [f] were processed and [f] does not exist
    then, [exec_ffmpeg] raises [FileNotFoundError] after logging it,
    [process_mp4_files] ends with that exception, and no command has
    been handed to the shell for [f] or for any file behind it. *)
Theorem missing_input_aborts (pre post : list Path) (f out : Path)
  (P : VideoPresetInfo) (w w1 : World) :
  process_loop shell (length (pre ++ f :: post)) 1 pre P w = Ok tt w1 ->
  output_file f P = inr out ->
  path_exists (fs w1) f = false ->
  let w2 := mkWorld (fs w1)
              (trace w1 ++ exec_prologue f out ++ [Log ERROR (missing_msg f)])%list in
  exec_ffmpeg shell f out P w1 = Raise (FileNotFoundError (missing_msg f)) w2
  /\ process_mp4_files shell (pre ++ f :: post) P w
     = Raise (FileNotFoundError (missing_msg f)) w2
  /\ execs (trace w2) = execs (trace w1).
Proof.
  intros Hpre Hout Hi w2.
  pose proof (exec_ffmpeg_missing shell f out P w1 Hi) as Hm. fold w2 in Hm.
  split; [exact Hm | split].
  - unfold process_mp4_files. rewrite process_loop_app, Hpre.
    eapply process_loop_abort; eassumption.
  - unfold w2; cbn [trace]. rewrite !execs_app. simpl. now rewrite app_nil_r.
Qed.

End Batch.

Lemma failure_stops_batch_two_clips :
  exists w2,
    process_mp4_files shell_failing [of_str "movie.mp4"; of_str "other.mp4"]
      (VideoPreset_value av1_fhd_5) (mkWorld fs_two_clips [])
    = Raise (CalledProcessError 1
               (ffmpeg_cmd (of_str "movie.mp4") (of_str "movie_fhd_av1_5mbps.mkv")
                  (VideoPreset_value av1_fhd_5))) w2
    /\ execs (trace w2)
       = [ffmpeg_cmd (of_str "movie.mp4") (of_str "movie_fhd_av1_5mbps.mkv")
            (VideoPreset_value av1_fhd_5)].
Proof.
  destruct (failure_stops_batch shell_failing [] [of_str "other.mp4"]
              (of_str "movie.mp4") (of_str "movie_fhd_av1_5mbps.mkv")
              (VideoPreset_value av1_fhd_5) (mkWorld fs_two_clips [])
              (mkWorld fs_two_clips []) (Exited 1) fs_two_clips _
              eq_refl eq_refl eq_refl eq_refl eq_refl eq_refl)
    as (w2 & H1 & _ & _ & H2).
  exists w2. split; [exact H1 | exact H2].
Defined.

Lemma missing_input_aborts_gone :
  process_mp4_files shell_movie [of_str "gone.mp4"; of_str "movie.mp4"]
    (VideoPreset_value av1_fhd_5) (mkWorld fs_two_clips [])
  = Raise (FileNotFoundError "Input file gone.mp4 does not exist.")
      (mkWorld fs_two_clips
         (exec_prologue (of_str "gone.mp4") (of_str "gone_fhd_av1_5mbps.mkv")
          ++ [Log ERROR "Input file gone.mp4 does not exist."])%list).
Proof.
  exact (proj1 (proj2 (missing_input_aborts shell_movie [] [of_str "movie.mp4"]
                         (of_str "gone.mp4") (of_str "gone_fhd_av1_5mbps.mkv")
                         (VideoPreset_value av1_fhd_5) (mkWorld fs_two_clips [])
                         (mkWorld fs_two_clips []) eq_refl eq_refl eq_refl))).
Defined.

(** ** Discovery *)

Lemma collect_mp4_filter (found : list Path) :
  collect_mp4 found = filter is_mp4 found.
Proof.
  unfold collect_mp4.
  assert (H : forall acc,
             fold_left (fun mp4_files file =>
                          if is_mp4 file then (mp4_files ++ [file])%list
                          else mp4_files) found acc
             = (acc ++ filter is_mp4 found)%list).
  { induction found as [|f l IH]; intros acc; simpl.
    - now rewrite app_nil_r.
    - rewrite IH. destruct (is_mp4 f); [|reflexivity].
      now rewrite <- app_assoc. }
  apply H.
Qed.

Lemma rglob_node_sound (n : Node) :
  forall p q, In q (rglob_node p n) -> exists m, entry_below p n q m.
Proof.
  induction n as [|es IH] using Node_tree_ind; intros p q Hq; simpl in Hq.
  - contradiction.
  - apply in_app_or in Hq. destruct Hq as [Hq|Hq].
    + apply in_map_iff in Hq. destruct Hq as ([k m] & <- & Hin).
      exists m. now constructor.
    + apply in_flat_map in Hq. destruct Hq as ([k d] & Hin & Hq).
      rewrite Forall_forall in IH. specialize (IH _ Hin). simpl in IH.
      destruct d as [|es']; [contradiction|].
      destruct (IH _ _ Hq) as [m Hm]. exists m.
      eapply entry_deeper; eassumption.
Qed.

Lemma rglob_node_complete (p : Path) (n : Node) (q : Path) (m : Node) :
  entry_below p n q m -> In q (rglob_node p n).
Proof.
  induction 1 as [p es k m Hin | p es k d q m Hin Hbelow IH]; simpl;
    apply in_or_app.
  - left. apply in_map_iff. exists (k, m). now split.
  - right. apply in_flat_map. exists (k, d). split; [exact Hin|].
    destruct d; [inversion Hbelow | exact IH].
Qed.

(** Where [stat] finds a node, the three tests answer by its kind. *)
Lemma lookup_stat (f : FS) (p : Path) (n : Node) :
  lookup f p = Some n -> stat f p = inr n.
Proof.
  unfold lookup. destruct (stat f p) as [e|m]; [discriminate|].
  now intros [= ->].
Qed.

Lemma tests_of_lookup (f : FS) (p : Path) (n : Node) :
  lookup f p = Some n ->
  path_exists f p = true
  /\ is_file f p = Answers (match n with File => true | Dir _ => false end)
  /\ is_dir f p = Answers (match n with File => false | Dir _ => true end).
Proof.
  intros H. apply lookup_stat in H.
  unfold path_exists, is_file, is_dir, stat_test. now rewrite H.
Qed.

(** A test that answers True has found a node of its kind. *)
Lemma is_file_lookup (f : FS) (p : Path) :
  is_file f p = true -> lookup f p = Some File.
Proof.
  unfold is_file, stat_test, lookup.
  destruct (stat f p) as [e|[|es]].
  - destruct (ignore_error e); discriminate.
  - reflexivity.
  - discriminate.
Qed.


Lemma get_mp4_files_dir (f : FS) (t : list Event) (path : Path)
  (es : list (string * Node)) :
  lookup f path = Some (Dir es) ->
  get_mp4_files path (mkWorld f t)
  = Ok (filter is_mp4 (rglob_node path (Dir es))) (mkWorld f t).
Proof.
  intros H. destruct (tests_of_lookup f path _ H) as (_ & Hf & Hd).
  unfold get_mp4_files, bind, get_fs, ask, rglob, ret.
  cbn [fs]. rewrite Hf, Hd, H. cbn [andb]. now rewrite collect_mp4_filter.
Qed.




(** C4, at a directory that holds a sub-directory named [clips.mp4]:
    discovery returns the clip and the sub-directory, which is not a
    file. *)
Theorem discovery_returns_directory :
  get_mp4_files (of_str "videos") (mkWorld fs_mp4_dir [])
  = Ok [of_str "videos/a.mp4"; of_str "videos/clips.mp4"] (mkWorld fs_mp4_dir [])
  /\ is_file fs_mp4_dir (of_str "videos/clips.mp4") = false
  /\ is_dir fs_mp4_dir (of_str "videos/clips.mp4") = true.
Proof. repeat split; reflexivity. Qed.

(** The discovery example of the specification. *)
Example discovery_spec_example :
  get_mp4_files (of_str "d") (mkWorld fs_spec_example [])
  = Ok [of_str "d/a.mp4"; of_str "d/a.MP4"; of_str "d/sub/c.mp4"]
      (mkWorld fs_spec_example []).
Proof. reflexivity. Qed.

(** Where no directory below [path] has an [.mp4] name, discovery yields
    exactly the regular files with that suffix. *)
Lemma discovery_files_only (f : FS) (t : list Event) (path : Path)
  (es : list (string * Node)) :
  lookup f path = Some (Dir es) ->
  (forall q sub, entry_below path (Dir es) q (Dir sub) -> is_mp4 q = false) ->
  exists found,
    get_mp4_files path (mkWorld f t) = Ok found (mkWorld f t)
    /\ forall q, In q found <->
                 entry_below path (Dir es) q File /\ is_mp4 q = true.
Proof.
  intros H Hnodir. eexists. split; [exact (get_mp4_files_dir f t path es H)|].
  intros q. rewrite filter_In. split.
  - intros [H1 H2]. split; [|exact H2].
    destruct (rglob_node_sound _ _ _ H1) as [[|sub] Hm]; [exact Hm|].
    rewrite (Hnodir _ _ Hm) in H2. discriminate.
  - intros [H1 H2]. split; [|exact H2].
    eapply rglob_node_complete; eassumption.
Qed.

(** A single [.mp4] file is discovered as itself. *)
Lemma get_mp4_files_single (path : Path) (w : World) :
  is_file (fs w) path = true -> is_mp4 path = true ->
  get_mp4_files path w = Ok [path] w.
Proof.
  intros H1 H2. unfold get_mp4_files, bind, get_fs, ask, ret.
  now rewrite H1, H2.
Qed.



(** A name of 300 letters is at no place of the tree, yet it is not
    reported: [stat] ends with [ENAMETOOLONG], which [is_file] raises
    again, and the exception leaves [get_mp4_files] and [main]. *)
Example overlong_name_raises :
  lookup fs_two_clips long_name = None
  /\ get_mp4_files long_name world_two_clips
     = Raise (OSErrorOf ENAMETOOLONG (str long_name)) world_two_clips
  /\ main shell_failing long_name (VideoPreset_value h265_fhd_6) world_two_clips
     = Raise (OSErrorOf ENAMETOOLONG (str long_name)) world_two_clips.
Proof. repeat split; vm_compute; reflexivity. Qed.

(** So does a path below a directory that may not be searched. *)
Example locked_path_raises :
  get_mp4_files (of_str "locked/clip.mp4") (mkWorld fs_locked [])
  = Raise (OSErrorOf EACCES "locked/clip.mp4") (mkWorld fs_locked []).
Proof. reflexivity. Qed.




(** ** Listing the presets *)

Lemma print_all_trace (lines : list string) (w : World) :
  print_all lines w = Ok tt (mkWorld (fs w) (trace w ++ map Stdout lines)%list).
Proof.
  revert w. induction lines as [|l r IH]; intros w; simpl.
  - unfold ret. rewrite app_nil_r. now destruct w.
  - unfold bind, print, emit. rewrite IH. cbn [fs trace].
    now rewrite <- app_assoc.
Qed.

Lemma VideoPreset_members_complete (p : VideoPreset) : In p VideoPreset_members.
Proof. destruct p; simpl; auto. Qed.

Lemma VideoPreset_members_NoDup : NoDup VideoPreset_members.
Proof.
  unfold VideoPreset_members.
  repeat constructor; simpl; intuition discriminate.
Qed.

Lemma get_preset_by_name_member (p : VideoPreset) :
  get_preset_by_name (VideoPreset_name p) = Some (VideoPreset_value p).
Proof. now destruct p. Qed.

(** C8.  With the list-presets flag the script prints an empty line, the
    heading, one line per member of [VideoPreset] (each member once, the
    lines all different, each with the member's name, codec, resolution
    and bit rate), an empty line, and exits with status 1; it touches
    neither the files nor the shell. *)
Theorem list_presets_prints_all (shell : FS -> string -> ShellResult * FS)
  (input : option string) (preset : string) (w : World) :
  script shell (mkArgs input preset true) w
  = Raise (SystemExit 1)
      (mkWorld (fs w)
         (trace w
          ++ [Stdout ""; Stdout "PRESETS:"]
          ++ map (fun m => Stdout (preset_line m)) VideoPreset_members
          ++ [Stdout ""])%list)
  /\ (forall m : VideoPreset,
        count_occ VideoPreset_eq_dec VideoPreset_members m = 1)
  /\ NoDup (map preset_line VideoPreset_members)
  /\ (forall m : VideoPreset,
        preset_line m =
        "  * " ++ VideoPreset_name m ++ ": codec:"
        ++ codec_name (Codec_value (codec (VideoPreset_value m)))
        ++ " (ext:" ++ extension (Codec_value (codec (VideoPreset_value m)))
        ++ ", lib:" ++ lib (Codec_value (codec (VideoPreset_value m))) ++ ") "
        ++ Resolution_name (resolution (VideoPreset_value m)) ++ ":"
        ++ Resolution_value (resolution (VideoPreset_value m)) ++ " "
        ++ PyStr.str_int (bitrateMbps (VideoPreset_value m)) ++ "Mbps").
Proof.
  split; [|split; [|split]].
  - unfold script; cbn [arg_list_presets]. unfold bind, print, emit, raise.
    rewrite print_all_trace. cbn [fs trace]. rewrite map_map.
    now rewrite <- !app_assoc.
  - now intros [].
  - repeat constructor; simpl; intuition discriminate.
  - now intros [].
Qed.

(** ** Existing outputs and running again *)

Section Rerun.

Variable shell : FS -> string -> ShellResult * FS.

Lemma exec_ffmpeg_ok_inv (i o : Path) (P : VideoPresetInfo) (w wa : World) :
  exec_ffmpeg shell i o P w = Ok tt wa ->
  path_exists (fs w) i = true
  /\ ((path_exists (fs w) o = true /\ fs wa = fs w)
      \/ (path_exists (fs w) o = false
          /\ shell (fs w) (ffmpeg_cmd i o P) = (Exited 0, fs wa))).
Proof.
  intros H. destruct (path_exists (fs w) i) as [[|]|e] eqn:Hi.
  - split; [reflexivity|].
    destruct (path_exists (fs w) o) as [[|]|e] eqn:Ho.
    + left. rewrite (exec_ffmpeg_skip shell i o P w Hi Ho) in H.
      injection H as <-. now split.
    + right. split; [reflexivity|].
      destruct (shell (fs w) (ffmpeg_cmd i o P)) as [r f'] eqn:Hsh.
      pose proof (exec_ffmpeg_run shell i o P w r f' Hi Ho Hsh) as Hrun.
      cbv zeta in Hrun. rewrite Hrun in H.
      destruct r as [rc|msg]; [|discriminate].
      destruct (Z.eqb rc 0) eqn:Hrc; [|discriminate].
      apply Z.eqb_eq in Hrc. subst rc. injection H as <-. reflexivity.
    + rewrite (exec_ffmpeg_output_fails shell i o P w e Hi Ho) in H.
      discriminate.
  - rewrite (exec_ffmpeg_missing shell i o P w Hi) in H. discriminate.
  - rewrite (exec_ffmpeg_input_fails shell i o P w e Hi) in H. discriminate.
Qed.

(** One turn of the loop that did not raise. *)
Lemma process_loop_cons_inv (total idx : nat) (i : Path) (rest : list Path)
  (P : VideoPresetInfo) (w w1 : World) :
  process_loop shell total idx (i :: rest) P w = Ok tt w1 ->
  exists out wa,
    output_file i P = inr out
    /\ exec_ffmpeg shell i out P w = Ok tt wa
    /\ process_loop shell total (S idx) rest P
         (mkWorld (fs wa) (trace wa ++ [LogProgress idx total])%list) = Ok tt w1.
Proof.
  simpl. unfold bind. destruct (output_file i P) as [e|out]; simpl; [discriminate|].
  unfold ret.
  destruct (exec_ffmpeg shell i out P w) as [[] wa|e wa] eqn:He; [|discriminate].
  unfold emit. intros H. exists out, wa. now repeat split.
Qed.

(** When every file of the list and its output exist, the loop converts
    nothing and returns. *)
Lemma process_loop_all_skipped (P : VideoPresetInfo) (l : list Path) :
  forall (total idx : nat) (w : World),
    (forall i, In i l ->
       path_exists (fs w) i = true
       /\ exists out, output_file i P = inr out
                      /\ path_exists (fs w) out = true) ->
    exists w2,
      process_loop shell total idx l P w = Ok tt w2
      /\ fs w2 = fs w /\ execs (trace w2) = execs (trace w).
Proof.
  induction l as [|i rest IH]; intros total idx w Hall.
  - exists w. now repeat split.
  - destruct (Hall i (or_introl eq_refl)) as (Hi & out & Hout & Ho).
    simpl. unfold bind. rewrite Hout. simpl. unfold ret.
    rewrite (exec_ffmpeg_skip shell i out P w Hi Ho). unfold emit. cbn [fs trace].
    destruct (IH total (S idx)
                (mkWorld (fs w)
                   ((trace w ++ exec_prologue i out ++ [Log WARNING (skip_msg out)])
                    ++ [LogProgress idx total])%list))
      as (w2 & Hrun & Hfs & Hex).
    { intros j Hj. apply Hall. now right. }
    exists w2. split; [exact Hrun | split; [exact Hfs|]].
    rewrite Hex. cbn [trace]. rewrite !execs_app. simpl. now rewrite !app_nil_r.
Qed.

Variable files : list Path.
Variable P : VideoPresetInfo.

(** What the batch expects of the tool: it removes none of the batch's
    files, and when it exits with 0 the output file is there. *)
Hypothesis shell_keeps :
  forall f cmd p, In p (batch_paths files P) ->
    path_exists f p = true -> path_exists (snd (shell f cmd)) p = true.

Hypothesis shell_writes :
  forall f i out, In i files -> output_file i P = inr out ->
    fst (shell f (ffmpeg_cmd i out P)) = Exited 0 ->
    path_exists (snd (shell f (ffmpeg_cmd i out P))) out = true.

Lemma output_in_batch_paths (i out : Path) :
  In i files -> output_file i P = inr out -> In out (batch_paths files P).
Proof.
  intros Hi Ho. unfold batch_paths. apply in_or_app. right.
  apply in_flat_map. exists i. split; [exact Hi|]. rewrite Ho. now left.
Qed.

Lemma exec_ffmpeg_keeps (i o : Path) (w wa : World) (p : Path) :
  exec_ffmpeg shell i o P w = Ok tt wa ->
  In p (batch_paths files P) ->
  path_exists (fs w) p = true -> path_exists (fs wa) p = true.
Proof.
  intros H Hp Hex. apply exec_ffmpeg_ok_inv in H.
  destruct H as (_ & [[_ Hfs] | [_ Hsh]]).
  - now rewrite Hfs.
  - pose proof (shell_keeps (fs w) (ffmpeg_cmd i o P) p Hp Hex) as Hk.
    now rewrite Hsh in Hk.
Qed.

Lemma process_loop_keeps (l : list Path) :
  forall (total idx : nat) (w w1 : World) (p : Path),
    process_loop shell total idx l P w = Ok tt w1 ->
    In p (batch_paths files P) ->
    path_exists (fs w) p = true -> path_exists (fs w1) p = true.
Proof.
  induction l as [|i rest IH]; intros total idx w w1 p Hrun Hp Hex.
  - simpl in Hrun. unfold ret in Hrun. injection Hrun as <-. exact Hex.
  - apply process_loop_cons_inv in Hrun.
    destruct Hrun as (out & wa & Hout & Hexec & Hrest).
    eapply IH; [exact Hrest | exact Hp |].
    cbn [fs]. eapply exec_ffmpeg_keeps; eassumption.
Qed.

(** After a run that did not raise, every file of the batch is there
    together with its output. *)
Lemma process_loop_settles (l : list Path) :
  forall (total idx : nat) (w w1 : World),
    incl l files ->
    process_loop shell total idx l P w = Ok tt w1 ->
    forall i, In i l ->
      path_exists (fs w1) i = true
      /\ exists out, output_file i P = inr out
                     /\ path_exists (fs w1) out = true.
Proof.
  induction l as [|j rest IH]; intros total idx w w1 Hincl Hrun i Hi.
  - contradiction.
  - pose proof Hrun as Hrun0. apply process_loop_cons_inv in Hrun.
    destruct Hrun as (out & wa & Hout & Hexec & Hrest).
    destruct Hi as [<-|Hi].
    + assert (Hj : In j files) by (apply Hincl; now left).
      assert (Hjb : In j (batch_paths files P))
        by (unfold batch_paths; apply in_or_app; now left).
      assert (Hob : In out (batch_paths files P))
        by (eapply output_in_batch_paths; eassumption).
      pose proof (exec_ffmpeg_ok_inv j out P w wa Hexec) as (Hjw & Hcase).
      split.
      * eapply process_loop_keeps; [exact Hrest | exact Hjb |].
        cbn [fs]. eapply exec_ffmpeg_keeps; eassumption.
      * exists out. split; [exact Hout|].
        eapply process_loop_keeps; [exact Hrest | exact Hob |]. cbn [fs].
        destruct Hcase as [[Ho Hfs] | [_ Hsh]].
        -- now rewrite Hfs.
        -- pose proof (shell_writes (fs w) j out Hj Hout) as Hw.
           rewrite Hsh in Hw. now apply Hw.
    + eapply IH; [|exact Hrest | exact Hi].
      intros x Hx. apply Hincl. now right.
Qed.

(** C3, as the code has it.  An input file that exists and whose output
    path exists is skipped: a warning is logged, nothing is raised, no
    command is run.  And when a run over [files] returned normally, a
    second run over the same list from the file system it left returns
    normally too, without handing any command to the shell. *)
Theorem existing_output_is_skipped :
  (forall (i o : Path) (w : World),
     path_exists (fs w) i = true -> path_exists (fs w) o = true ->
     exec_ffmpeg shell i o P w
     = Ok tt (mkWorld (fs w)
                (trace w ++ exec_prologue i o ++ [Log WARNING (skip_msg o)])%list))
  /\ (forall (w w1 : World) (t : list Event),
        process_mp4_files shell files P w = Ok tt w1 ->
        exists w2,
          process_mp4_files shell files P (mkWorld (fs w1) t) = Ok tt w2
          /\ fs w2 = fs w1
          /\ execs (trace w2) = execs t).
Proof.
  split.
  - intros i o w Hi Ho. now apply exec_ffmpeg_skip.
  - intros w w1 t Hrun. unfold process_mp4_files in *.
    apply (process_loop_all_skipped P files (length files) 1 (mkWorld (fs w1) t)).
    cbn [fs]. eapply process_loop_settles; [apply incl_refl | exact Hrun].
Qed.

End Rerun.

(** The claim of C3 without the input file: an output that exists does
    not make [exec_ffmpeg] return when the input is gone, since the input
    is looked at first. *)
Lemma skip_needs_existing_input :
  ~ (forall (shell : FS -> string -> ShellResult * FS) (i out : Path)
            (P : VideoPresetInfo) (w : World),
       output_file i P = inr out ->
       path_exists (fs w) out = true ->
       exists w', exec_ffmpeg shell i out P w = Ok tt w').
Proof.
  intros H.
  destruct (H shell_failing (of_str "movie.mp4") (of_str "movie_fhd_av1_5mbps.mkv")
              (VideoPreset_value av1_fhd_5) (mkWorld fs_output_only [])
              eq_refl eq_refl) as [w' Hw'].
  vm_compute in Hw'. discriminate.
Qed.

Lemma shell_movie_keeps (f : FS) (cmd : string) (p : Path) :
  In p (batch_paths [of_str "movie.mp4"] (VideoPreset_value av1_fhd_5)) ->
  path_exists f p = true -> path_exists (snd (shell_movie f cmd)) p = true.
Proof.
  intros Hp Hex. unfold shell_movie.
  destruct (String.eqb cmd _); cbn [snd]; [|exact Hex].
  cbv in Hp. destruct Hp as [<-|[<-|[]]]; reflexivity.
Qed.

Lemma shell_movie_writes (f : FS) (i out : Path) :
  In i [of_str "movie.mp4"] ->
  output_file i (VideoPreset_value av1_fhd_5) = inr out ->
  fst (shell_movie f (ffmpeg_cmd i out (VideoPreset_value av1_fhd_5))) = Exited 0 ->
  path_exists (snd (shell_movie f (ffmpeg_cmd i out (VideoPreset_value av1_fhd_5))))
    out = true.
Proof.
  intros [<-|[]] Hout _. vm_compute in Hout. injection Hout as <-. reflexivity.
Qed.

Lemma existing_output_is_skipped_movie :
  exists w1 w2,
    process_mp4_files shell_movie [of_str "movie.mp4"]
      (VideoPreset_value av1_fhd_5) world_two_clips = Ok tt w1
    /\ execs (trace w1)
       = [ffmpeg_cmd (of_str "movie.mp4") (of_str "movie_fhd_av1_5mbps.mkv")
            (VideoPreset_value av1_fhd_5)]
    /\ process_mp4_files shell_movie [of_str "movie.mp4"]
         (VideoPreset_value av1_fhd_5) (mkWorld (fs w1) []) = Ok tt w2
    /\ fs w2 = fs w1
    /\ execs (trace w2) = [].
Proof.
  pose (w1 := match process_mp4_files shell_movie [of_str "movie.mp4"]
                      (VideoPreset_value av1_fhd_5) world_two_clips with
              | Ok _ x => x
              | Raise _ x => x
              end).
  assert (E : process_mp4_files shell_movie [of_str "movie.mp4"]
                (VideoPreset_value av1_fhd_5) world_two_clips = Ok tt w1)
    by reflexivity.
  destruct (proj2 (existing_output_is_skipped shell_movie [of_str "movie.mp4"]
                     (VideoPreset_value av1_fhd_5)
                     shell_movie_keeps shell_movie_writes)
              world_two_clips w1 [] E) as (w2 & Hrun & Hfs & Hex).
  exists w1, w2. repeat split; assumption.
Defined.

(** Running again on a directory is another matter with the h265
    presets: their outputs are [.mp4] files, which discovery then takes
    for inputs. *)
Example rerun_on_directory_converts_outputs :
  exists w',
    main shell_failing (of_str "d") (VideoPreset_value h265_fhd_6)
      (mkWorld fs_h265_done [])
    = Raise (CalledProcessError 1
               (ffmpeg_cmd (of_str "d/movie_fhd_h265_6mbps.mp4")
                  (of_str "d/movie_fhd_h265_6mbps_fhd_h265_6mbps.mp4")
                  (VideoPreset_value h265_fhd_6))) w'
    /\ execs (trace w')
       = [ffmpeg_cmd (of_str "d/movie_fhd_h265_6mbps.mp4")
            (of_str "d/movie_fhd_h265_6mbps_fhd_h265_6mbps.mp4")
            (VideoPreset_value h265_fhd_6)].
Proof. eexists. split; reflexivity. Qed.

(** ** The command line *)

Module ShFacts.
Import Sh PyStrFacts.

(** Between double quotes a plain string is taken as it is, up to the
    closing quote. *)
Lemma split_words_quoted (s rest : string) :
  plain s = true ->
  forall w,
    split_words true (Some w) (s ++ String "034"%char rest)
    = split_words false (Some (w ++ s)) rest.
Proof.
  induction s as [|c t IH]; intros Hp w.
  - simpl. now rewrite append_nil_r.
  - simpl in Hp. apply andb_prop in Hp. destruct Hp as [Hc Ht].
    apply andb_prop in Hc. destruct Hc as [Hq Hs].
    apply negb_true_iff in Hq, Hs.
    cbn [append split_words]. rewrite Hq, Hs. unfold snoc.
    rewrite (IH Ht). now rewrite append_assoc.
Qed.

End ShFacts.

(** X13.  For paths that double quotes protect (blanks are fine), the
    process gets the argument vector the command line spells out. *)
Lemma ffmpeg_cmd_words (i o : Path) (P : VideoPresetInfo) :
  Sh.plain (str i) = true -> Sh.plain (str o) = true ->
  Sh.sh_words (ffmpeg_cmd i o P)
  = Some ["ffmpeg"; "-i"; str i; "-c:v"; lib (Codec_value (codec P));
          "-crf"; "23"; "-preset"; "medium";
          "-vf"; "scale=" ++ Resolution_value (resolution P);
          "-c:a"; "copy"; "-loglevel"; "error"; str o].
Proof.
  intros Hi Ho. unfold Sh.sh_words, ffmpeg_cmd, quoted, dquote.
  rewrite !PyStrFacts.append_assoc.
  destruct (codec P), (resolution P); simpl;
    rewrite (ShFacts.split_words_quoted _ _ Hi); simpl;
    rewrite (ShFacts.split_words_quoted _ _ Ho); reflexivity.
Qed.

Example ffmpeg_cmd_words_blanks :
  Sh.sh_words (ffmpeg_cmd (of_str "My Clips/a b.mp4")
                 (of_str "My Clips/a b_uhd_av1_20mbps.mkv")
                 (VideoPreset_value av1_uhd_20))
  = Some ["ffmpeg"; "-i"; "My Clips/a b.mp4"; "-c:v"; "libaom-av1";
          "-crf"; "23"; "-preset"; "medium"; "-vf"; "scale=3840:2160";
          "-c:a"; "copy"; "-loglevel"; "error";
          "My Clips/a b_uhd_av1_20mbps.mkv"].
Proof. reflexivity. Qed.

(** C7, at a file name with a double quote between [my] and
    [clip.mp4]: it is an input file, its output
    path is derived, and the double quote inside it closes the quotation
    that the command line opened, so the shell hands [ffmpeg] three
    words, the third of which runs from the rest of the name to the end
    of the line. *)
Theorem quote_in_path_breaks_quoting :
  is_mp4 quote_clip = true
  /\ exists o,
       output_file quote_clip (VideoPreset_value h265_fhd_6) = inr o
       /\ Sh.sh_words (ffmpeg_cmd quote_clip o (VideoPreset_value h265_fhd_6))
          = Some ["ffmpeg"; "-i";
                  "myclip.mp4 -c:v libx265 -crf 23 -preset medium -vf scale=1920:1080 -c:a copy -loglevel error myclip_fhd_h265_6mbps.mp4"]
       /\ Sh.sh_words (ffmpeg_cmd quote_clip o (VideoPreset_value h265_fhd_6))
          <> Some ["ffmpeg"; "-i"; str quote_clip; "-c:v"; "libx265";
                   "-crf"; "23"; "-preset"; "medium"; "-vf"; "scale=1920:1080";
                   "-c:a"; "copy"; "-loglevel"; "error"; str o].
Proof.
  split; [reflexivity|].
  exists (of_str ("my" ++ dquote ++ "clip_fhd_h265_6mbps.mp4")).
  split; [reflexivity|]. split.
  - reflexivity.
  - vm_compute. discriminate.
Qed.

Example list_presets_output :
  script shell_failing (mkArgs None "h265_fhd_6" true) world_two_clips
  = Raise (SystemExit 1)
      (mkWorld fs_two_clips
         [Stdout EmptyString;
          Stdout "PRESETS:";
          Stdout "  * h265_fhd_6: codec:h265 (ext:mp4, lib:libx265) fhd:1920:1080 6Mbps";
          Stdout "  * h265_uhd_40: codec:h265 (ext:mp4, lib:libx265) uhd:3840:2160 40Mbps";
          Stdout "  * av1_fhd_5: codec:av1 (ext:mkv, lib:libaom-av1) fhd:1920:1080 5Mbps";
          Stdout "  * av1_uhd_20: codec:av1 (ext:mkv, lib:libaom-av1) uhd:3840:2160 20Mbps";
          Stdout EmptyString]).
Proof. reflexivity. Qed.

(* ================================================================== *)
(** * Further properties of the program *)
(* ================================================================== *)

(** ** The preset catalogue *)

(** X1.  [get_preset_by_name] finds a preset exactly for the names of
    the members of [VideoPreset], and then returns that member's value;
    for every other string it returns [None]. *)
Theorem get_preset_by_name_spec (s : string) :
  (forall v, get_preset_by_name s = Some v <->
             exists m, VideoPreset_name m = s /\ VideoPreset_value m = v)
  /\ (get_preset_by_name s = None <-> forall m, VideoPreset_name m <> s).
Proof.
  assert (Hfwd : forall v, get_preset_by_name s = Some v ->
                   exists m, VideoPreset_name m = s /\ VideoPreset_value m = v).
  { intros v. unfold get_preset_by_name, VideoPreset_members. cbn [find].
    destruct (String.eqb (VideoPreset_name h265_fhd_6) s) eqn:E1;
      [apply String.eqb_eq in E1; intros [= <-]; eauto|].
    destruct (String.eqb (VideoPreset_name h265_uhd_40) s) eqn:E2;
      [apply String.eqb_eq in E2; intros [= <-]; eauto|].
    destruct (String.eqb (VideoPreset_name av1_fhd_5) s) eqn:E3;
      [apply String.eqb_eq in E3; intros [= <-]; eauto|].
    destruct (String.eqb (VideoPreset_name av1_uhd_20) s) eqn:E4;
      [apply String.eqb_eq in E4; intros [= <-]; eauto|].
    discriminate. }
  split.
  - intros v. split; [apply Hfwd|].
    intros (m & <- & <-). apply get_preset_by_name_member.
  - split.
    + intros H m <-. rewrite get_preset_by_name_member in H. discriminate.
    + intros H. destruct (get_preset_by_name s) as [v|] eqn:E; [|reflexivity].
      destruct (Hfwd v eq_refl) as (m & Hm & _). now apply H in Hm.
Qed.

(** ** Which names are input files *)

Lemma lower_ascii_dot (c : ascii) :
  PyStr.lower_ascii c = "."%char -> c = "."%char.
Proof.
  destruct c as [[] [] [] [] [] [] [] []]; intros H; vm_compute in H;
    try discriminate; reflexivity.
Qed.

Lemma lower_ascii_four (c : ascii) :
  PyStr.lower_ascii c = "4"%char -> c = "4"%char.
Proof.
  destruct c as [[] [] [] [] [] [] [] []]; intros H; vm_compute in H;
    try discriminate; reflexivity.
Qed.

Lemma lower_ascii_m (c : ascii) :
  PyStr.lower_ascii c = "m"%char -> c = "m"%char \/ c = "M"%char.
Proof.
  destruct c as [[] [] [] [] [] [] [] []]; intros H; vm_compute in H;
    try discriminate; auto.
Qed.

Lemma lower_ascii_p (c : ascii) :
  PyStr.lower_ascii c = "p"%char -> c = "p"%char \/ c = "P"%char.
Proof.
  destruct c as [[] [] [] [] [] [] [] []]; intros H; vm_compute in H;
    try discriminate; auto.
Qed.

Lemma lower_mp4 (s : string) :
  PyStr.lower s = ".mp4" -> In s [".mp4"; ".mP4"; ".Mp4"; ".MP4"].
Proof.
  destruct s as [|a [|b [|c [|d [|e s]]]]]; try discriminate.
  cbn [PyStr.lower]. intros [= Ha Hb Hc Hd].
  apply lower_ascii_dot in Ha. apply lower_ascii_four in Hd.
  apply lower_ascii_m in Hb. apply lower_ascii_p in Hc. subst a d.
  destruct Hb as [-> | ->], Hc as [-> | ->]; simpl; auto.
Qed.

(** X2.  A path passes the test of [get_mp4_files] exactly when its name
    is a non-empty stem followed by [.mp4], [.mP4], [.Mp4] or [.MP4]. *)
Theorem is_mp4_spellings (p : Path) :
  is_mp4 p = true <->
  exists st sfx, name p = st ++ sfx /\ st <> ""
                 /\ In sfx [".mp4"; ".mP4"; ".Mp4"; ".MP4"].
Proof.
  unfold is_mp4, suffix. split.
  - intros H. apply String.eqb_eq in H.
    assert (Hs : name_suffix (name p) <> "").
    { intros E. rewrite E in H. discriminate. }
    destruct (PathFacts.name_suffix_split _ Hs) as (i & Hi & H0 & H1 & Es & Et).
    exists (name_stem (name p)), (name_suffix (name p)).
    split; [symmetry; apply PathFacts.name_stem_suffix | split].
    + rewrite Et. destruct (name p) as [|a n]; [simpl in H1; lia|].
      destruct i; [lia | discriminate].
    + now apply lower_mp4.
  - intros (st & sfx & Hn & Hst & Hsfx). rewrite Hn.
    assert (L : 0 < String.length st) by (destruct st; simpl; [congruence | lia]).
    assert (E : name_suffix (st ++ sfx) = sfx).
    { unfold name_suffix. rewrite PyStrFacts.rfind_app, PyStrFacts.length_append.
      simpl in Hsfx.
      destruct Hsfx as [<-|[<-|[<-|[<-|[]]]]]; cbn [PyStr.rfind Ascii.eqb];
        simpl; rewrite Nat.add_0_r;
        (replace ((0 <? String.length st)%nat
                  && (String.length st <? String.length st + 4 - 1)%nat)
           with true
           by (symmetry; apply andb_true_intro; split; apply Nat.ltb_lt; lia));
        apply PyStrFacts.drop_app_length. }
    rewrite E. simpl in Hsfx.
    destruct Hsfx as [<-|[<-|[<-|[<-|[]]]]]; reflexivity.
Qed.

(** ** Output paths, continued *)

Lemma append_cancel_l (a b c : string) : a ++ b = a ++ c -> b = c.
Proof.
  induction a as [|x a IH]; simpl; intros H; [exact H|].
  injection H as H. now apply IH.
Qed.

Lemma append_cancel_r (t : string) :
  forall a b : string, a ++ t = b ++ t -> a = b.
Proof.
  induction a as [|x a IH]; intros [|y b] H; simpl in H.
  - reflexivity.
  - apply (f_equal String.length) in H. simpl in H.
    rewrite PyStrFacts.length_append in H. lia.
  - apply (f_equal String.length) in H. simpl in H.
    rewrite PyStrFacts.length_append in H. lia.
  - injection H as -> H. f_equal. now apply IH.
Qed.

(** A text of at least two characters whose only dot is the first one is
    the suffix of every name that ends with it after a non-empty front. *)
Lemma name_suffix_append (a sfx : string) :
  a <> "" -> PyStr.rfind dot sfx = Some 0 -> 2 <= String.length sfx ->
  name_suffix (a ++ sfx) = sfx.
Proof.
  intros Ha Hr Hl. unfold name_suffix.
  rewrite PyStrFacts.rfind_app, Hr, PyStrFacts.length_append, Nat.add_0_r.
  assert (La : 0 < String.length a) by (destruct a; simpl; [congruence | lia]).
  replace ((0 <? String.length a)%nat
           && (String.length a <? String.length a + String.length sfx - 1)%nat)
    with true
    by (symmetry; apply andb_true_intro; split; apply Nat.ltb_lt; lia).
  apply PyStrFacts.drop_app_length.
Qed.

Lemma extra_info_no_sep (P : VideoPresetInfo) :
  PyStr.contains sep (extra_info P) = false.
Proof.
  unfold extra_info.
  rewrite !PyStrFacts.contains_app, PyStrFacts.str_int_no_slash.
  now destruct (codec P), (resolution P).
Qed.

(** X3.  For a well-formed path, deriving the output path fails exactly
    when the path has no name (the root, or the current directory), and
    then with the [ValueError] of [with_name], whose message starts with
    the [repr] of the path; otherwise the output lies in the directory
    of the input. *)
Theorem output_file_defined (I : Path) (P : VideoPresetInfo) :
  wf_path I ->
  (name I = "" ->
   output_file I P
   = inl (ValueError (repr_nameless I ++ " has an empty name")))
  /\ (name I <> "" ->
      exists out, output_file I P = inr out /\ parent out = parent I).
Proof.
  intros Hwf. split.
  - intros E. unfold output_file, with_stem, with_name. now rewrite E.
  - intros Hn. pose proof (PathFacts.name_no_sep _ Hwf) as Hsep.
    pose proof (PathFacts.name_stem_suffix (name I)) as Hsplit.
    assert (Hparts : PyStr.contains sep (name_stem (name I)) = false
                     /\ PyStr.contains sep (name_suffix (name I)) = false).
    { rewrite <- Hsplit, PyStrFacts.contains_app in Hsep.
      now apply orb_false_elim in Hsep. }
    destruct Hparts as [Hst Hsf].
    set (n1 := (stem I ++ "_" ++ extra_info P) ++ suffix I).
    assert (Hus : PyStr.contains "_"%char n1 = true).
    { unfold n1. rewrite !PyStrFacts.contains_app. simpl.
      now rewrite orb_true_r. }
    assert (H1 : String.eqb n1 "" = false).
    { apply String.eqb_neq. intros E. rewrite E in Hus. discriminate. }
    assert (H2 : String.eqb n1 "." = false).
    { apply String.eqb_neq. intros E. rewrite E in Hus. discriminate. }
    assert (H3 : PyStr.contains sep n1 = false).
    { unfold n1, stem, suffix.
      rewrite !PyStrFacts.contains_app, Hst, Hsf, extra_info_no_sep.
      reflexivity. }
    unfold output_file, with_stem, with_name. fold n1.
    replace (String.eqb (name I) "") with false
      by (symmetry; now apply String.eqb_neq).
    rewrite H1, H2, H3. cbn [orb].
    unfold with_suffix. rewrite PathFacts.name_child, H1.
    replace (PyStr.contains sep ("." ++ extension (Codec_value (codec P))))
      with false by now destruct (codec P).
    replace (negb (String.eqb ("." ++ extension (Codec_value (codec P))) "")
             && negb (PyStr.startswith dot
                        ("." ++ extension (Codec_value (codec P))))
             || String.eqb ("." ++ extension (Codec_value (codec P))) ".")
      with false by now destruct (codec P).
    eexists. split; [reflexivity|].
    unfold parent. cbn [anchor parts]. now rewrite !removelast_last.
Qed.

Lemma output_file_defined_root :
  output_file (of_str "/") (VideoPreset_value h265_fhd_6)
  = inl (ValueError "PosixPath('/') has an empty name")
  /\ exists out,
       output_file (of_str "/srv/clip") (VideoPreset_value h265_fhd_6) = inr out
       /\ parent out = parent (of_str "/srv/clip").
Proof.
  split.
  - exact (proj1 (output_file_defined (of_str "/") (VideoPreset_value h265_fhd_6)
                    (of_str_wf "/")) eq_refl).
  - apply (proj2 (output_file_defined (of_str "/srv/clip")
                    (VideoPreset_value h265_fhd_6) (of_str_wf "/srv/clip"))).
    discriminate.
Defined.

(** X4.  The output of an input file never has the name of the input
    file: the conversion cannot write over its source. *)
Theorem output_is_not_input (I out : Path) (P : VideoPresetInfo) :
  wf_path I -> is_mp4 I = true -> output_file I P = inr out ->
  name out <> name I /\ out <> I.
Proof.
  intros Hwf Hmp4 Hout.
  rewrite (PathFacts.output_file_suffixed I P Hwf (is_mp4_suffix _ Hmp4)) in Hout.
  injection Hout as <-.
  assert (Hne : name (mkPath (anchor I)
                        (removelast (parts I)
                         ++ [(stem I ++ "_" ++ extra_info P ++ "."
                              ++ extension (Codec_value (codec P)))%string])%list)
                <> name I).
  { rewrite PathFacts.name_child. intros E.
    rewrite <- (PathFacts.name_stem_suffix (name I)) in E at 1.
    unfold stem in E. apply append_cancel_l in E.
    unfold is_mp4, suffix in Hmp4. apply String.eqb_eq, lower_mp4 in Hmp4.
    rewrite <- E in Hmp4. simpl in Hmp4.
    destruct Hmp4 as [H|[H|[H|[H|[]]]]]; discriminate. }
  split; [exact Hne|]. intros E. apply Hne. exact (f_equal name E).
Qed.

Lemma output_is_not_input_movie :
  name (of_str "movie_fhd_h265_6mbps.mp4") <> name (of_str "movie.mp4").
Proof.
  exact (proj1 (output_is_not_input (of_str "movie.mp4")
                  (of_str "movie_fhd_h265_6mbps.mp4")
                  (VideoPreset_value h265_fhd_6) (of_str_wf "movie.mp4")
                  eq_refl eq_refl)).
Defined.

(** X5.  The output of an input file is itself an input file exactly for
    the h265 codec, whose container is [mp4]: a later discovery in the
    same directory picks up h265 outputs and never av1 outputs. *)
Theorem output_is_mp4_iff_h265 (I out : Path) (P : VideoPresetInfo) :
  wf_path I -> is_mp4 I = true -> output_file I P = inr out ->
  is_mp4 out = match codec P with h265 => true | av1 => false end.
Proof.
  intros Hwf Hmp4 Hout.
  rewrite (PathFacts.output_file_suffixed I P Hwf (is_mp4_suffix _ Hmp4)) in Hout.
  injection Hout as <-. unfold is_mp4, suffix. rewrite PathFacts.name_child.
  match goal with
  | |- context [name_suffix ?x] =>
      replace x with ((stem I ++ "_" ++ extra_info P)
                      ++ ("." ++ extension (Codec_value (codec P))))
        by now rewrite !PyStrFacts.append_assoc
  end.
  rewrite (name_suffix_append (stem I ++ "_" ++ extra_info P)
             ("." ++ extension (Codec_value (codec P)))).
  - now destruct (codec P).
  - intros E. apply (f_equal (PyStr.contains "_"%char)) in E.
    rewrite !PyStrFacts.contains_app in E. simpl in E.
    rewrite orb_true_r in E. discriminate.
  - now destruct (codec P).
  - destruct (codec P); simpl; lia.
Qed.

Lemma output_is_mp4_iff_h265_movie :
  is_mp4 (of_str "movie_fhd_h265_6mbps.mp4") = true
  /\ is_mp4 (of_str "movie_fhd_av1_5mbps.mkv") = false.
Proof.
  split.
  - exact (output_is_mp4_iff_h265 (of_str "movie.mp4")
             (of_str "movie_fhd_h265_6mbps.mp4") (VideoPreset_value h265_fhd_6)
             (of_str_wf "movie.mp4") eq_refl eq_refl).
  - exact (output_is_mp4_iff_h265 (of_str "movie.mp4")
             (of_str "movie_fhd_av1_5mbps.mkv") (VideoPreset_value av1_fhd_5)
             (of_str_wf "movie.mp4") eq_refl eq_refl).
Defined.

(** X6.  Under one preset, two input files get the same output path
    exactly when they lie in the same directory and have the same stem;
    so [a.mp4] and [a.MP4] share their output. *)
Theorem output_collision (I1 I2 : Path) (P : VideoPresetInfo) :
  wf_path I1 -> wf_path I2 -> is_mp4 I1 = true -> is_mp4 I2 = true ->
  (output_file I1 P = output_file I2 P
   <-> parent I1 = parent I2 /\ stem I1 = stem I2).
Proof.
  intros W1 W2 M1 M2.
  rewrite (PathFacts.output_file_suffixed I1 P W1 (is_mp4_suffix _ M1)).
  rewrite (PathFacts.output_file_suffixed I2 P W2 (is_mp4_suffix _ M2)).
  unfold parent. split.
  - intros [= Ha Hp]. apply app_inj_tail in Hp. destruct Hp as [Hr Hn].
    split; [now rewrite Ha, Hr|].
    now apply append_cancel_r in Hn.
  - intros [[= Ha Hr] Hs]. now rewrite Ha, Hr, Hs.
Qed.

Lemma output_collision_case :
  output_file (of_str "d/a.mp4") (VideoPreset_value av1_fhd_5)
  = output_file (of_str "d/a.MP4") (VideoPreset_value av1_fhd_5).
Proof.
  apply (output_collision (of_str "d/a.mp4") (of_str "d/a.MP4")
           (VideoPreset_value av1_fhd_5) (of_str_wf _) (of_str_wf _)
           eq_refl eq_refl).
  split; reflexivity.
Defined.

(** X7.  Two different presets of the catalogue never send one input
    file to the same output path. *)
Theorem presets_do_not_collide (I : Path) (m1 m2 : VideoPreset) :
  wf_path I -> is_mp4 I = true ->
  output_file I (VideoPreset_value m1) = output_file I (VideoPreset_value m2) ->
  m1 = m2.
Proof.
  intros Hwf Hmp4.
  rewrite !(PathFacts.output_file_suffixed I _ Hwf (is_mp4_suffix _ Hmp4)).
  intros [= H]. apply app_inj_tail in H. destruct H as [_ H].
  apply append_cancel_l in H.
  destruct m1, m2; try reflexivity; vm_compute in H; discriminate.
Qed.

Lemma presets_do_not_collide_movie :
  output_file (of_str "movie.mp4") (VideoPreset_value h265_uhd_40)
  <> output_file (of_str "movie.mp4") (VideoPreset_value av1_uhd_20).
Proof.
  intros E.
  pose proof (presets_do_not_collide (of_str "movie.mp4") h265_uhd_40 av1_uhd_20
                (of_str_wf "movie.mp4") eq_refl E) as H.
  discriminate H.
Defined.

(** ** Discovery, continued *)

(** X8.  Whenever discovery returns, it has left the file system and
    the shell alone, every path it returns passes the [.mp4] test, and
    it has printed its one line of diagnosis only together with an empty
    result.  Whenever it raises, it has printed nothing: the world is as
    it was. *)
Theorem get_mp4_files_safe (path : Path) (w : World) :
  (forall found w',
     get_mp4_files path w = Ok found w' ->
     fs w' = fs w
     /\ execs (trace w') = execs (trace w)
     /\ Forall (fun q => is_mp4 q = true) found
     /\ (trace w' = trace w
         \/ (found = []
             /\ trace w' = (trace w ++ [Stdout (invalid_path_line path)])%list)))
  /\ (forall e w', get_mp4_files path w = Raise e w' -> w' = w).
Proof.
  unfold get_mp4_files, bind, get_fs, ask, ret, print, emit.
  destruct (is_file (fs w) path) as [file|e1].
  - destruct (file && is_mp4 path) eqn:E1.
    + apply andb_prop in E1. destruct E1 as [_ E1]. split.
      * intros found w' [= <- <-]. repeat split; auto.
      * discriminate.
    + destruct (is_dir (fs w) path) as [[|]|e2].
      * split; [|discriminate]. intros found w' [= <- <-].
        repeat split; auto.
        rewrite collect_mp4_filter. apply Forall_forall.
        intros q Hq. now apply filter_In in Hq.
      * split; [|discriminate]. intros found w' [= <- <-]. cbn [fs trace].
        repeat split; auto.
        rewrite execs_app. simpl. apply app_nil_r.
      * split; [discriminate|]. now intros e w' [= _ <-].
  - split; [discriminate|]. now intros e w' [= _ <-].
Qed.

Lemma get_mp4_files_safe_example :
  Forall (fun q => is_mp4 q = true)
    [of_str "d/a.mp4"; of_str "d/a.MP4"; of_str "d/sub/c.mp4"]
  /\ mkWorld fs_two_clips [] = world_two_clips.
Proof.
  split.
  - exact (proj1 (proj2 (proj2
             (proj1 (get_mp4_files_safe (of_str "d") (mkWorld fs_spec_example []))
                _ _ eq_refl)))).
  - exact (proj2 (get_mp4_files_safe long_name world_two_clips)
             (OSErrorOf ENAMETOOLONG (str long_name)) _ eq_refl).
Defined.

(** ** The batch runner, continued *)

Lemma progress_app (a b : list Event) :
  progress (a ++ b) = (progress a ++ progress b)%list.
Proof.
  induction a as [|e a IH]; simpl; [reflexivity|].
  destruct e; simpl; now rewrite IH.
Qed.

Lemma warnings_app (a b : list Event) :
  warnings (a ++ b) = warnings a + warnings b.
Proof.
  induction a as [|e a IH]; simpl; [reflexivity|].
  destruct e as [| [] | |]; simpl; now rewrite IH.
Qed.

Section Accounting.

Variable shell : FS -> string -> ShellResult * FS.

(** What one call of [exec_ffmpeg] adds to the trace. *)
Lemma exec_ffmpeg_outcome (i o : Path) (P : VideoPresetInfo) (w : World) :
  exists d,
    trace (world_of (exec_ffmpeg shell i o P w)) = (trace w ++ d)%list
    /\ length (execs d) <= 1
    /\ progress d = []
    /\ (execs d = [] -> fs (world_of (exec_ffmpeg shell i o P w)) = fs w)
    /\ (forall wa, exec_ffmpeg shell i o P w = Ok tt wa ->
          length (execs d) + warnings d = 1).
Proof.
  destruct (path_exists (fs w) i) as [[|]|e] eqn:Hi;
    [destruct (path_exists (fs w) o) as [[|]|e] eqn:Ho| |].
  - rewrite (exec_ffmpeg_skip shell i o P w Hi Ho). cbn [world_of trace fs].
    eexists. split; [reflexivity|]. rewrite execs_app, progress_app, warnings_app.
    simpl. repeat split; auto.
  - destruct (shell (fs w) (ffmpeg_cmd i o P)) as [r f'] eqn:Hsh.
    pose proof (exec_ffmpeg_run shell i o P w r f' Hi Ho Hsh) as Hrun.
    cbv zeta in Hrun. rewrite Hrun.
    destruct r as [rc|msg]; [destruct (Z.eqb rc 0)|];
      cbn [world_of trace fs]; rewrite <- ?app_assoc;
      (eexists; split; [reflexivity|]);
      rewrite !execs_app, !progress_app, ?warnings_app; simpl;
      repeat split; auto; discriminate.
  - rewrite (exec_ffmpeg_output_fails shell i o P w e Hi Ho).
    cbn [world_of trace fs]. eexists. split; [reflexivity|].
    simpl. repeat split; auto. discriminate.
  - rewrite (exec_ffmpeg_missing shell i o P w Hi). cbn [world_of trace fs].
    eexists. split; [reflexivity|]. rewrite execs_app, progress_app.
    simpl. repeat split; auto. discriminate.
  - rewrite (exec_ffmpeg_input_fails shell i o P w e Hi).
    cbn [world_of trace fs]. eexists. split; [reflexivity|].
    simpl. repeat split; auto. discriminate.
Qed.

Lemma process_loop_outcome (P : VideoPresetInfo) (l : list Path) :
  forall (total idx : nat) (w : World),
  exists d,
    trace (world_of (process_loop shell total idx l P w)) = (trace w ++ d)%list
    /\ length (execs d) <= length l
    /\ (execs d = [] -> fs (world_of (process_loop shell total idx l P w)) = fs w)
    /\ (forall w1, process_loop shell total idx l P w = Ok tt w1 ->
          progress d = map (fun i => (i, total)) (seq idx (length l))
          /\ length (execs d) + warnings d = length l).
Proof.
  induction l as [|f rest IH]; intros total idx w.
  - exists []. cbn. rewrite app_nil_r. repeat split; auto.
  - cbn [process_loop]. unfold bind.
    destruct (output_file f P) as [e|out]; cbn [lift]; unfold raise, ret.
    + exists []. cbn. rewrite app_nil_r. repeat split; auto with arith;
        discriminate.
    + destruct (exec_ffmpeg_outcome f out P w) as (d1 & Ht & Hx & Hp & Hfs & Hok).
      destruct (exec_ffmpeg shell f out P w) as [[] wa|e wa] eqn:He;
        cbn [world_of] in Ht, Hfs.
      * unfold emit.
        set (w2 := mkWorld (fs wa) (trace wa ++ [LogProgress idx total])%list).
        destruct (IH total (S idx) w2) as (d2 & Ht2 & Hx2 & Hfs2 & Hok2).
        exists (d1 ++ [LogProgress idx total] ++ d2)%list.
        split.
        { rewrite Ht2. unfold w2. cbn [trace]. now rewrite Ht, <- !app_assoc. }
        rewrite !execs_app, !progress_app, !warnings_app, !length_app, Hp.
        cbn [execs progress warnings length app]. repeat split.
        -- lia.
        -- intros E. apply app_eq_nil in E. destruct E as [E1 E2].
           rewrite (Hfs2 E2). unfold w2. cbn [fs]. now apply Hfs.
        -- destruct (Hok2 _ H) as [Hpr _]. now rewrite Hpr.
        -- destruct (Hok2 _ H) as [_ Hc]. specialize (Hok wa eq_refl). lia.
      * exists d1. cbn [world_of]. split; [exact Ht|].
        repeat split; auto; try discriminate. cbn [length]. lia.
Qed.

(** X10.  However a batch ends, it only adds to the trace, hands the
    shell at most one command per file, and leaves the file system as it
    was when it ran no command at all. *)
Theorem process_mp4_files_bounded (files : list Path) (P : VideoPresetInfo)
  (w : World) :
  exists d,
    trace (world_of (process_mp4_files shell files P w)) = (trace w ++ d)%list
    /\ length (execs d) <= length files
    /\ (execs d = []
        -> fs (world_of (process_mp4_files shell files P w)) = fs w).
Proof.
  unfold process_mp4_files.
  destruct (process_loop_outcome P files (length files) 1 w)
    as (d & Ht & Hx & Hfs & _).
  exists d. now repeat split.
Qed.

(** X11.  A batch of [n] files that returns normally has logged the
    progress lines 1 of [n] up to [n] of [n], in this order, and has
    dealt with every file in one of two ways: a command for the shell,
    or a warning that the output exists. *)
Theorem process_mp4_files_accounts (files : list Path) (P : VideoPresetInfo)
  (w w1 : World) :
  process_mp4_files shell files P w = Ok tt w1 ->
  exists d,
    trace w1 = (trace w ++ d)%list
    /\ progress d = map (fun i => (i, length files)) (seq 1 (length files))
    /\ length (execs d) + warnings d = length files.
Proof.
  unfold process_mp4_files. intros H.
  destruct (process_loop_outcome P files (length files) 1 w)
    as (d & Ht & _ & _ & Hok).
  rewrite H in Ht. cbn [world_of] in Ht.
  exists d. split; [exact Ht | exact (Hok w1 H)].
Qed.

(** X12.  [main] on one existing [.mp4] file whose output is not there
    yet, with a tool that exits with 0: the file is discovered, exactly
    one command is run, the one for this file, and [main] returns with
    the progress line 1 of 1. *)
Theorem main_single_file (path out : Path) (P : VideoPresetInfo) (w : World)
  (fs' : FS) :
  is_file (fs w) path = true -> is_mp4 path = true ->
  output_file path P = inr out ->
  path_exists (fs w) out = false ->
  shell (fs w) (ffmpeg_cmd path out P) = (Exited 0, fs') ->
  main shell path P w
  = Ok tt (mkWorld fs'
             (trace w ++ exec_prologue path out
              ++ [Log INFO ("Executing command: " ++ ffmpeg_cmd path out P);
                  Exec (ffmpeg_cmd path out P);
                  Log INFO ("Conversion completed successfully. Output file: "
                            ++ str out);
                  LogProgress 1 1])%list).
Proof.
  intros Hf Hm Hout Ho Hsh.
  assert (Hi : path_exists (fs w) path = true).
  { apply is_file_lookup in Hf.
    now destruct (tests_of_lookup _ _ _ Hf) as (Hi & _). }
  unfold main, bind. rewrite (get_mp4_files_single path w Hf Hm).
  unfold process_mp4_files. cbn [length process_loop]. unfold bind.
  rewrite Hout. cbn [lift]. unfold ret.
  pose proof (exec_ffmpeg_run shell path out P w (Exited 0) fs' Hi Ho Hsh) as Hrun.
  cbv zeta in Hrun. cbn [Z.eqb] in Hrun. rewrite Hrun.
  unfold emit. cbn [fs trace]. now rewrite <- !app_assoc.
Qed.

End Accounting.

(** Where the derived output name is longer than a directory holds, the
    test for the output raises and no command is run. *)
Example overlong_output_raises :
  is_file fs_long_clip long_clip = true
  /\ exists out w',
       output_file long_clip (VideoPreset_value h265_fhd_6) = inr out
       /\ main shell_failing long_clip (VideoPreset_value h265_fhd_6)
            (mkWorld fs_long_clip [])
          = Raise (OSErrorOf ENAMETOOLONG (str out)) w'
       /\ execs (trace w') = [].
Proof.
  split; [reflexivity|]. eexists _, _.
  split; [reflexivity|]. split; vm_compute; reflexivity.
Qed.

Lemma process_mp4_files_accounts_twice :
  exists w1 d,
    process_mp4_files shell_movie [of_str "movie.mp4"; of_str "movie.mp4"]
      (VideoPreset_value av1_fhd_5) world_two_clips = Ok tt w1
    /\ trace w1 = (trace world_two_clips ++ d)%list
    /\ progress d = [(1, 2); (2, 2)]
    /\ length (execs d) + warnings d = 2.
Proof.
  pose (w1 := world_of (process_mp4_files shell_movie
                          [of_str "movie.mp4"; of_str "movie.mp4"]
                          (VideoPreset_value av1_fhd_5) world_two_clips)).
  assert (E : process_mp4_files shell_movie
                [of_str "movie.mp4"; of_str "movie.mp4"]
                (VideoPreset_value av1_fhd_5) world_two_clips = Ok tt w1)
    by reflexivity.
  destruct (process_mp4_files_accounts shell_movie _ _ _ _ E) as (d & H1 & H2 & H3).
  exists w1, d. repeat split; assumption.
Defined.

Lemma main_single_file_movie :
  exists w1,
    main shell_movie (of_str "movie.mp4") (VideoPreset_value av1_fhd_5)
      world_two_clips = Ok tt w1
    /\ fs w1 = fs_movie_done
    /\ execs (trace w1)
       = [ffmpeg_cmd (of_str "movie.mp4") (of_str "movie_fhd_av1_5mbps.mkv")
            (VideoPreset_value av1_fhd_5)].
Proof.
  eexists. split.
  - exact (main_single_file shell_movie (of_str "movie.mp4")
             (of_str "movie_fhd_av1_5mbps.mkv") (VideoPreset_value av1_fhd_5)
             world_two_clips fs_movie_done eq_refl eq_refl eq_refl eq_refl eq_refl).
  - split; reflexivity.
Defined.

(** ** The command line, continued *)

Lemma ffmpeg_cmd_words_spaces :
  Sh.sh_words (ffmpeg_cmd (of_str "My Clips/a b.mp4")
                 (of_str "My Clips/a b_uhd_av1_20mbps.mkv")
                 (VideoPreset_value av1_uhd_20))
  = Some ["ffmpeg"; "-i"; "My Clips/a b.mp4"; "-c:v"; "libaom-av1";
          "-crf"; "23"; "-preset"; "medium"; "-vf"; "scale=3840:2160";
          "-c:a"; "copy"; "-loglevel"; "error";
          "My Clips/a b_uhd_av1_20mbps.mkv"].
Proof.
  exact (ffmpeg_cmd_words (of_str "My Clips/a b.mp4")
           (of_str "My Clips/a b_uhd_av1_20mbps.mkv")
           (VideoPreset_value av1_uhd_20) eq_refl eq_refl).
Defined.

(** ** What a batch leaves behind *)

(** X15.  With a tool that removes none of the batch's files and leaves
    the output file in place when it exits with 0, a batch that returns
    normally ends in a file system where every input file is still there
    and has its output file beside it. *)
Theorem successful_batch_leaves_outputs
  (shell : FS -> string -> ShellResult * FS) (files : list Path)
  (P : VideoPresetInfo) (w w1 : World) :
  (forall f cmd p, In p (batch_paths files P) ->
     path_exists f p = true -> path_exists (snd (shell f cmd)) p = true) ->
  (forall f i out, In i files -> output_file i P = inr out ->
     fst (shell f (ffmpeg_cmd i out P)) = Exited 0 ->
     path_exists (snd (shell f (ffmpeg_cmd i out P))) out = true) ->
  process_mp4_files shell files P w = Ok tt w1 ->
  forall i, In i files ->
    path_exists (fs w1) i = true
    /\ exists out, output_file i P = inr out /\ path_exists (fs w1) out = true.
Proof.
  intros Hkeep Hwrite Hrun.
  exact (process_loop_settles shell files P Hkeep Hwrite files (length files) 1
           w w1 (incl_refl files) Hrun).
Qed.

Lemma successful_batch_leaves_outputs_movie :
  exists w1,
    process_mp4_files shell_movie [of_str "movie.mp4"]
      (VideoPreset_value av1_fhd_5) world_two_clips = Ok tt w1
    /\ path_exists (fs w1) (of_str "movie.mp4") = true
    /\ exists out,
         output_file (of_str "movie.mp4") (VideoPreset_value av1_fhd_5) = inr out
         /\ path_exists (fs w1) out = true.
Proof.
  pose (w1 := world_of (process_mp4_files shell_movie [of_str "movie.mp4"]
                          (VideoPreset_value av1_fhd_5) world_two_clips)).
  assert (E : process_mp4_files shell_movie [of_str "movie.mp4"]
                (VideoPreset_value av1_fhd_5) world_two_clips = Ok tt w1)
    by reflexivity.
  exists w1. split; [exact E|].
  exact (successful_batch_leaves_outputs shell_movie [of_str "movie.mp4"]
           (VideoPreset_value av1_fhd_5) world_two_clips w1
           shell_movie_keeps shell_movie_writes E (of_str "movie.mp4")
           (or_introl eq_refl)).
Defined.
